(** * auto-windows: the automation wrappers and the readiness poller

    A shallow embedding of the Python sources

      - [deploy_vm_automated_v2.py], [deploy_vm_automated_v3.py],
        [deploy_vm_automated_v4.py] (prompt substitution, output scraping),
      - [get_vm_ip.py], [check_vm_status.py] (polling Prism Central),

    together with the properties their specification states about them.

    Conventions.  A Python [str] is a [string]; its characters are the
    code points below 256.  A [dict] with string keys is a [gmap string _],
    and [d.get(k, default)] is [default (d !! k)].  Effects are explicit:
    the polling scripts return their exit code or result together with the
    sequence of queries, sleeps, password prompts and file writes they
    performed (what they print is left out), the in-process wrappers thread
    the interpreter's globals through a state and exception monad. *)

From Stdlib Require Import ZArith Ascii String.
From stdpp Require Import gmap strings list.

Local Open Scope Z_scope.

(** ** Text primitives of the Python standard library *)

Module Text.

(** [s.startswith(p)]. *)
Fixpoint startswith (p s : string) : bool :=
  match p, s with
  | EmptyString, _ => true
  | String _ _, EmptyString => false
  | String a p', String b s' => Ascii.eqb a b && startswith p' s'
  end.

(** [needle in s], for strings. *)
Fixpoint contains (needle s : string) : bool :=
  startswith needle s ||
  match s with
  | EmptyString => false
  | String _ s' => contains needle s'
  end.

(** The mathematical reading of [needle in s]. *)
Definition substring_of (needle s : string) : Prop :=
  ∃ pre post, s = pre +:+ needle +:+ post.

(** [c.lower()] on the code points below 256: the letters A-Z, and the
    Latin-1 capitals U+00C0..U+00DE apart from the multiplication sign. *)
Definition lower_char (c : ascii) : ascii :=
  let n := N_of_ascii c in
  if ((65 <=? n) && (n <=? 90))%N then ascii_of_N (n + 32)
  else if ((192 <=? n) && (n <=? 222) && negb (n =? 215))%N
       then ascii_of_N (n + 32)
  else c.

(** [s.lower()]. *)
Fixpoint lower (s : string) : string :=
  match s with
  | EmptyString => EmptyString
  | String c s' => String (lower_char c) (lower s')
  end.

(** ['*' * n]. *)
Fixpoint stars (n : nat) : string :=
  match n with
  | O => EmptyString
  | S n' => String "*"%char (stars n')
  end.

Definition newline : ascii := "010"%char.

(** [s.split('\n')]: never empty, [''.split('\n') = ['']]. *)
Fixpoint split_lines (s : string) : list string :=
  match s with
  | EmptyString => [EmptyString]
  | String c s' =>
      if Ascii.eqb c newline then EmptyString :: split_lines s'
      else match split_lines s' with
           | l :: ls => String c l :: ls
           | [] => [String c EmptyString]
           end
  end.

(** ['\n'.join(lines)]. *)
Fixpoint join_lines (ls : list string) : string :=
  match ls with
  | [] => EmptyString
  | [l] => l
  | l :: ls' => l +:+ String newline (join_lines ls')
  end.

(** *** A regular expression made of single-character classes

    [uuid_pattern] of [deploy_vm_automated_v4.py] is a sequence of 36
    character classes, each matched exactly once, so a match at a given
    position is unique and [re.search] returns the leftmost one. *)

Definition char_class := ascii → bool.

Definition is_digit (c : ascii) : bool :=
  let n := N_of_ascii c in ((48 <=? n) && (n <=? 57))%N.

(** The class [[0-9a-f]]. *)
Definition lower_hex (c : ascii) : bool :=
  let n := N_of_ascii c in
  is_digit c || ((97 <=? n) && (n <=? 102))%N.

(** The class [[0-9a-fA-F]]: what a case-insensitive pattern accepts. *)
Definition any_hex (c : ascii) : bool :=
  let n := N_of_ascii c in
  lower_hex c || ((65 <=? n) && (n <=? 70))%N.

Definition dash (c : ascii) : bool := Ascii.eqb c "-"%char.

(** [{8}-{4}-{4}-{4}-{12}] over the class [hex]. *)
Definition grouping (hex : char_class) : list char_class :=
  replicate 8 hex ++ [dash] ++ replicate 4 hex ++ [dash] ++
  replicate 4 hex ++ [dash] ++ replicate 4 hex ++ [dash] ++
  replicate 12 hex.

(** [r'[0-9a-f]{8}-[0-9a-f]{4}-[0-9a-f]{4}-[0-9a-f]{4}-[0-9a-f]{12}'] *)
Definition uuid_pattern : list char_class := grouping lower_hex.

(** [re.match(pat, s)]: the matched prefix, when there is one. *)
Fixpoint re_match (pat : list char_class) (s : string) : option string :=
  match pat with
  | [] => Some EmptyString
  | cls :: pat' =>
      match s with
      | EmptyString => None
      | String c s' =>
          if cls c then String c <$> re_match pat' s' else None
      end
  end.

(** [re.search(pat, s)]: [group(0)] of the leftmost match. *)
Fixpoint re_search (pat : list char_class) (s : string) : option string :=
  match re_match pat s with
  | Some m => Some m
  | None =>
      match s with
      | EmptyString => None
      | String _ s' => re_search pat s'
      end
  end.

(** All characters of [s] are in [cls]. *)
Fixpoint all_in (cls : char_class) (s : string) : bool :=
  match s with
  | EmptyString => true
  | String c s' => cls c && all_in cls s'
  end.

(** The 8-4-4-4-12 shape, stated on the five groups. *)
Definition uuid_shape (hex : char_class) (s : string) : Prop :=
  ∃ g1 g2 g3 g4 g5 : string,
    s = g1 +:+ "-" +:+ g2 +:+ "-" +:+ g3 +:+ "-" +:+ g4 +:+ "-" +:+ g5 ∧
    String.length g1 = 8%nat ∧ String.length g2 = 4%nat ∧
    String.length g3 = 4%nat ∧ String.length g4 = 4%nat ∧
    String.length g5 = 12%nat ∧
    all_in hex g1 ∧ all_in hex g2 ∧ all_in hex g3 ∧
    all_in hex g4 ∧ all_in hex g5.

End Text.

(** ** The output extractor of [deploy_vm_automated_v4.py] *)

Module Extractor.
Import Text.

(** One iteration of the [for line in lines] loop: the pair
    [(vm_uuid, task_uuid)] after the line. *)
Definition scan_line (acc : string * string) (line : string)
  : string * string :=
  let '(vm_uuid, task_uuid) := acc in
  if contains "VM UUID:" line then
    match re_search uuid_pattern line with
    | Some m => (m, task_uuid)
    | None => (vm_uuid, task_uuid)
    end
  else if contains "Task UUID:" line then
    match re_search uuid_pattern line with
    | Some m => (vm_uuid, m)
    | None => (vm_uuid, task_uuid)
    end
  else (vm_uuid, task_uuid).

(** [extract_uuids_from_output(output_text)]. *)
Definition extract_uuids_from_output (output_text : string)
  : string * string :=
  foldl scan_line ("", "") (split_lines output_text).

(** The identifier a line contributes to the label ['VM UUID:']. *)
Definition vm_match (line : string) : option string :=
  if contains "VM UUID:" line then re_search uuid_pattern line else None.

(** The identifier a line contributes to the label ['Task UUID:']; the
    [elif] gives the VM label precedence on a line that carries both. *)
Definition task_match (line : string) : option string :=
  if contains "VM UUID:" line then None
  else if contains "Task UUID:" line then re_search uuid_pattern line
  else None.

End Extractor.

(** ** What Prism Central answers: the JSON of [GET /vms/{uuid}]

    Every key is optional, as the sources read each of them with
    [dict.get] and a default. *)

Module Prism.

Record ip_endpoint := {
  ip : option string;             (* ip_endpoint.get('ip') *)
  type : option string;           (* ip_endpoint.get('type', 'UNKNOWN') *)
}.

Record nic := {
  ip_endpoint_list : option (list ip_endpoint);
}.

Record spec_resources := { power_state : option string }.

Record vm_spec := {
  name : option string;
  resources : option spec_resources;
}.

Record status_resources := { nic_list : option (list nic) }.

Record vm_status := { status_res : option status_resources }.

Record vm_data := {
  spec : option vm_spec;
  status : option vm_status;
}.

(** The outcome of one [requests.get]: the call raises a
    [RequestException], or a response arrives with a status code and a
    JSON body. *)
Inductive reply :=
| request_exception
| response (status_code : Z) (json : vm_data).

(** The network as the scripts see it: the reply to the [n]-th call
    (counted from 0) made with a URL and basic-auth credentials. *)
Definition network := string → string * string → nat → reply.

(** [vm_data.get('spec', {}).get('resources', {}).get('power_state', 'UNKNOWN')] *)
Definition get_power_state (d : vm_data) : string :=
  default "UNKNOWN" ((spec d ≫= resources) ≫= power_state : option string).

(** [vm_data.get('spec', {}).get('name', 'Unknown')] *)
Definition get_name (d : vm_data) : string :=
  default "Unknown" (spec d ≫= name : option string).

(** [vm_data.get('status', {}).get('resources', {}).get('nic_list', [])] *)
Definition get_nic_list (d : vm_data) : list nic :=
  default [] ((status d ≫= status_res) ≫= nic_list : option (list nic)).

(** Truth value of [ip_endpoint.get('ip')]: present and not empty. *)
Definition truthy (o : option string) : bool :=
  match o with
  | Some s => negb (String.eqb s "")
  | None => false
  end.

(** The inner loop [for ip_endpoint in ip_endpoint_list]: the first
    address that is non-empty and whose type is accepted. *)
Fixpoint scan_endpoints (accept : string → bool) (l : list ip_endpoint)
  : option string :=
  match l with
  | [] => None
  | ip_endpoint :: l' =>
      let ip_address := ip ip_endpoint in
      let ip_type := default "UNKNOWN" (type ip_endpoint) in
      match ip_address with
      | Some a =>
          if truthy ip_address && accept ip_type then Some a
          else scan_endpoints accept l'
      | None => scan_endpoints accept l'
      end
  end.

(** The outer loop [for nic in nic_list]. *)
Fixpoint scan_nics (accept : string → bool) (l : list nic)
  : option string :=
  match l with
  | [] => None
  | nic :: l' =>
      match scan_endpoints accept (default [] (ip_endpoint_list nic)) with
      | Some a => Some a
      | None => scan_nics accept l'
      end
  end.

(** All endpoints of a body, first interface first, in listed order. *)
Definition endpoints (d : vm_data) : list ip_endpoint :=
  concat (map (λ n, default [] (ip_endpoint_list n)) (get_nic_list d)).

(** An endpoint carries an address of an accepted category. *)
Definition usable (accept : string → bool) (e : ip_endpoint) : bool :=
  truthy (ip e) && accept (default "UNKNOWN" (type e)).

(** The same, as the specification words it: the endpoint reports the
    non-empty address [a], and its category is one of [cats]. *)
Definition address_of_category (cats : list string) (e : ip_endpoint)
    (a : string) : Prop :=
  ip e = Some a ∧ a ≠ "" ∧ ∃ c, c ∈ cats ∧ type e = Some c.

End Prism.

(** ** The record written to [temp/vm-details.json] *)

Module Details.

Record vm_details := {
  vm_uuid : string;
  vm_name : string;
  ip_address : option string;     (* None is JSON null *)
  power_state : string;
  status : string;
  timestamp : option string;      (* key present in check_vm_status only *)
  message : option string;        (* key present in PENDING records only *)
}.

End Details.

(** What a script does to the outside world, in order. *)
Inductive event :=
| Query (url : string) (attempt : nat)      (* requests.get *)
| Sleep (seconds : Z)                       (* time.sleep *)
| Getpass (prompt : string)                 (* getpass.getpass *)
| WriteFile (path : string) (content : Details.vm_details).

(** ** [get_vm_ip.py] *)

Module Poller.
Import Prism Details.

(** [ip_type == 'ASSIGNED'] *)
Definition accepted (ip_type : string) : bool := String.eqb ip_type "ASSIGNED".

Section Loop.
Variable net : network.
Variables vm_url username password vm_uuid : string.
Variable max_attempts : Z.

(** The final [return] of the function; [seen] is the local [vm_data],
    bound when some earlier response had status 200. *)
Definition timeout_record (seen : option vm_data) : vm_details :=
  {| Details.vm_uuid := vm_uuid;
     Details.vm_name :=
       match seen with
       | Some d => get_name d
       | None => "Unknown"
       end;
     Details.ip_address := None;
     Details.power_state :=
       match seen with
       | Some d => get_power_state d
       | None => "UNKNOWN"
       end;
     Details.status := "TIMEOUT";
     Details.timestamp := None;
     Details.message := None |}.

(** [if attempt < max_attempts - 1: time.sleep(30)] *)
Definition pause (attempt : nat) : list event :=
  if bool_decide (Z.of_nat attempt < max_attempts - 1) then [Sleep 30]
  else [].

(** The [for attempt in range(max_attempts)] loop, over the attempts
    still to make. *)
Fixpoint poll (attempts : list nat) (seen : option vm_data)
  : vm_details * list event :=
  match attempts with
  | [] => (timeout_record seen, [])
  | attempt :: rest =>
      match net vm_url (username, password) attempt with
      | request_exception =>
          let '(r, t) := poll rest seen in
          (r, Query vm_url attempt :: pause attempt ++ t)
      | response status_code vm_data =>
          if status_code =? 200 then
            match scan_nics accepted (get_nic_list vm_data) with
            | Some ip_address =>
                ({| Details.vm_uuid := vm_uuid;
                    Details.vm_name := get_name vm_data;
                    Details.ip_address := Some ip_address;
                    Details.power_state := get_power_state vm_data;
                    Details.status := "SUCCESS";
                    Details.timestamp := None;
                    Details.message := None |},
                 [Query vm_url attempt])
            | None =>
                let '(r, t) := poll rest (Some vm_data) in
                (r, Query vm_url attempt :: pause attempt ++ t)
            end
          else
            let '(r, t) := poll rest seen in
            (r, Query vm_url attempt :: pause attempt ++ t)
      end
  end.
End Loop.

(** [get_vm_ip_address(pc_ip, username, password, vm_uuid, max_wait_minutes)] *)
Definition get_vm_ip_address (net : network)
    (pc_ip username password vm_uuid : string) (max_wait_minutes : Z)
  : vm_details * list event :=
  let base_url := "https://" +:+ pc_ip +:+ ":9440/api/nutanix/v3" in
  let max_attempts := max_wait_minutes * 2 in
  let vm_url := base_url +:+ "/vms/" +:+ vm_uuid in
  poll net vm_url username password vm_uuid max_attempts
       (seq 0 (Z.to_nat max_attempts)) None.

(** [main()], given [sys.argv], the content of
    [deployment_config.json] ([None] when the file does not exist) and
    the password typed at the prompt.  The result is the exit code of
    the process. *)
Definition main (net : network) (argv : list string)
    (config_file : option (gmap string string)) (typed : string)
  : Z * list event :=
  match argv with
  | [_; vm_uuid] =>
      match config_file with
      | None => (1, [])                           (* FileNotFoundError *)
      | Some config =>
          match config !! "pc_ip" with
          | None => (1, [])                       (* KeyError *)
          | Some pc_ip =>
              match config !! "username" with
              | None => (1, [])                   (* KeyError *)
              | Some username =>
                  let prompt := "Enter password for " +:+ username +:+ ": " in
                  let password := typed in
                  let '(result, t) :=
                    get_vm_ip_address net pc_ip username password vm_uuid 10 in
                  (0, Getpass prompt :: t ++
                      [WriteFile "temp/vm-details.json" result])
              end
          end
      end
  | _ => (1, [])                                  (* usage *)
  end.

End Poller.

(** ** [check_vm_status.py] *)

Module StatusCheck.
Import Prism Details.

(** [ip_type in ['ASSIGNED', 'LEARNED']] *)
Definition accepted (ip_type : string) : bool :=
  String.eqb ip_type "ASSIGNED" || String.eqb ip_type "LEARNED".

Definition result_file : string := "temp/vm-details.json".

(** [check_vm_status(pc_ip, username, password, vm_uuid)] *)
Definition check_vm_status (net : network)
    (pc_ip username password vm_uuid : string) : bool * list event :=
  let base_url := "https://" +:+ pc_ip +:+ ":9440/api/nutanix/v3" in
  let vm_url := base_url +:+ "/vms/" +:+ vm_uuid in
  match net vm_url (username, password) 0%nat with
  | request_exception => (false, [Query vm_url 0])
  | response status_code vm_data =>
      if status_code =? 200 then
        let power_state := get_power_state vm_data in
        let vm_name := get_name vm_data in
        match scan_nics accepted (get_nic_list vm_data) with
        | Some ip_address =>
            let result :=
              {| Details.vm_uuid := vm_uuid;
                 Details.vm_name := vm_name;
                 Details.ip_address := Some ip_address;
                 Details.power_state := power_state;
                 Details.status := "SUCCESS";
                 Details.timestamp := Some "null";
                 Details.message := None |} in
            (true, [Query vm_url 0; WriteFile result_file result])
        | None =>
            let result :=
              {| Details.vm_uuid := vm_uuid;
                 Details.vm_name := vm_name;
                 Details.ip_address := None;
                 Details.power_state := power_state;
                 Details.status := "PENDING";
                 Details.timestamp := None;
                 Details.message := Some "VM powered on, waiting for IP assignment" |} in
            (false, [Query vm_url 0; WriteFile result_file result])
        end
      else (false, [Query vm_url 0])
  end.

(** [main()], with the same inputs as the poller's. *)
Definition main (net : network) (argv : list string)
    (config_file : option (gmap string string)) (typed : string)
  : Z * list event :=
  match argv with
  | [_; vm_uuid] =>
      match config_file with
      | None => (1, [])                           (* FileNotFoundError *)
      | Some config =>
          match config !! "pc_ip" with
          | None => (1, [])                       (* KeyError *)
          | Some pc_ip =>
              match config !! "username" with
              | None => (1, [])                   (* KeyError *)
              | Some username =>
                  let prompt := "Enter password for " +:+ username +:+ ": " in
                  let password := typed in
                  let '(success, t) :=
                    check_vm_status net pc_ip username password vm_uuid in
                  (0, Getpass prompt :: t)
              end
          end
      end
  | _ => (1, [])                                  (* usage *)
  end.

End StatusCheck.

(** ** Notions used to state the poller's properties *)

Module Session.
Import Prism.

(** [x] between consecutive elements of [l]. *)
Fixpoint interleave {A} (x : A) (l : list A) : list A :=
  match l with
  | [] => []
  | [y] => [y]
  | y :: l' => y :: x :: interleave x l'
  end.

Definition is_query (e : event) : bool :=
  match e with Query _ _ => true | _ => false end.

Definition is_sleep (e : event) : bool :=
  match e with Sleep _ => true | _ => false end.

(** The body of the reply when the query succeeded (status 200). *)
Definition body (r : reply) : option vm_data :=
  match r with
  | response status_code d => if status_code =? 200 then Some d else None
  | request_exception => None
  end.

(** The body of the most recent successful query among the attempts
    [0 .. n-1] of a remote [remote]. *)
Fixpoint most_recent (remote : nat → reply) (n : nat) : option vm_data :=
  match n with
  | O => None
  | S n' =>
      match body (remote n') with
      | Some d => Some d
      | None => most_recent remote n'
      end
  end.

(** The attempt [k] on [remote] ends without an address the poller accepts. *)
Definition miss (remote : nat → reply) (k : nat) : Prop :=
  ∀ d, body (remote k) = Some d →
       scan_nics Poller.accepted (get_nic_list d) = None.

(** The poller's local [vm_data] after the attempts, starting from [seen]. *)
Definition seen_after (remote : nat → reply) (attempts : list nat)
    (seen : option vm_data) : option vm_data :=
  foldl (λ s k, match body (remote k) with Some d => Some d | None => s end)
        seen attempts.

End Session.

(** ** The fragment of the Python runtime the wrappers rely on

    A computation runs on a state, and either returns a value or raises.
    [try_except] is [try: .. except Exception as e: ..], which lets
    [SystemExit] and [KeyboardInterrupt] through; [try_finally] is
    [try: .. finally: ..]. *)

Module Py.

Inductive exn := mk_exn (derives_Exception : bool) (type_name text : string).

Definition derives_Exception (e : exn) : bool :=
  let 'mk_exn b _ _ := e in b.
Definition type_name (e : exn) : string := let 'mk_exn _ n _ := e in n.
Definition text (e : exn) : string := let 'mk_exn _ _ t := e in t.

Definition RecursionError : exn :=
  mk_exn true "RecursionError" "maximum recursion depth exceeded".
Definition EOFError : exn := mk_exn true "EOFError" "EOF when reading a line".
Definition SystemExit (code : string) : exn := mk_exn false "SystemExit" code.
Definition KeyboardInterrupt : exn := mk_exn false "KeyboardInterrupt" "".

Inductive outcome (A : Type) :=
| Returns (a : A)
| Raises (e : exn).
Global Arguments Returns {A} a.
Global Arguments Raises {A} e.

(** A computation over a state of type [S]. *)
Record M (S A : Type) : Type := Run { run : S → outcome A * S }.
Global Arguments Run {S A} _.
Global Arguments run {S A} _ _.

Global Instance M_ret {S} : MRet (M S) := λ A a, Run (λ s, (Returns a, s)).

Global Instance M_bind {S} : MBind (M S) := λ A B f m,
  Run (λ s,
    match run m s with
    | (Returns a, s') => run (f a) s'
    | (Raises e, s') => (Raises e, s')
    end).

Definition raise {S A} (e : exn) : M S A := Run (λ s, (Raises e, s)).

Definition gets {S A} (f : S → A) : M S A := Run (λ s, (Returns (f s), s)).

Definition modify {S} (f : S → S) : M S unit := Run (λ s, (Returns tt, f s)).

(** [try: body  except Exception as e: handler e] *)
Definition try_except {S A} (body : M S A) (handler : exn → M S A) : M S A :=
  Run (λ s,
    match run body s with
    | (Returns a, s') => (Returns a, s')
    | (Raises e, s') =>
        if derives_Exception e then run (handler e) s' else (Raises e, s')
    end).

(** [try: body  finally: final].  The [finally] block always runs; if it
    raises, its exception wins, otherwise the body's outcome stands. *)
Definition try_finally {S A} (body : M S A) (final : M S unit) : M S A :=
  Run (λ s,
    let '(r, s1) := run body s in
    match run final s1 with
    | (Returns _, s2) => (r, s2)
    | (Raises e, s2) => (Raises e, s2)
    end).

End Py.

(** ** The interactive session driver
    ([create_automated_input_function], [create_automated_getpass_function])

    [print] is the interpreter's own here, as in the third revision, which
    patches [input] and [getpass] only. *)

Module Driver.
Import Py Text.

(** What the name [input] can be bound to in [builtins]. *)
Inductive input_impl :=
| builtin      (* the interpreter's own [input]: asks the terminal *)
| automated.   (* the closure returned by create_automated_input_function *)

Record session := {
  builtins_input : input_impl;
  inputs_queue : list string;   (* the list object the closure captured *)
  terminal : list string;       (* the lines a person would still type *)
  stdout : string;              (* everything written so far *)
}.

Definition write (txt : string) : M session unit :=
  modify (λ s, {| builtins_input := builtins_input s;
                  inputs_queue := inputs_queue s;
                  terminal := terminal s;
                  stdout := stdout s +:+ txt |}).

(** [print(msg)] *)
Definition print (msg : string) : M session unit :=
  write (msg +:+ String newline "").

Definition set_queue (q : list string) : M session unit :=
  modify (λ s, {| builtins_input := builtins_input s;
                  inputs_queue := q;
                  terminal := terminal s;
                  stdout := stdout s |}).

(** The interpreter's [input(prompt)]: writes the prompt and reads a
    line from the terminal. *)
Definition genuine_input (prompt : string) : M session string :=
  write prompt ;;
  Run (λ s, match terminal s with
            | [] => (Raises EOFError, s)
            | line :: rest =>
                (Returns line,
                 {| builtins_input := builtins_input s;
                    inputs_queue := inputs_queue s;
                    terminal := rest;
                    stdout := stdout s |})
            end).

(** The body of [automated_input(prompt)].  The name [input] in its
    last line is looked up in [builtins] when the line runs: [input] is
    what that lookup yields. *)
Definition automated_input (input : string → M session string)
    (prompt : string) : M session string :=
  inputs_queue ← gets inputs_queue;
  match inputs_queue with
  | response :: rest =>                       (* inputs_queue.pop(0) *)
      set_queue rest ;;
      print (prompt +:+ response) ;;
      mret response
  | [] => input prompt
  end.

(** A call [input(prompt)] with [depth] frames left before the
    interpreter raises [RecursionError]. *)
Fixpoint call_input (depth : nat) (prompt : string) : M session string :=
  match depth with
  | O => raise RecursionError
  | S depth' =>
      impl ← gets builtins_input;
      match impl with
      | builtin => genuine_input prompt
      | automated => automated_input (call_input depth') prompt
      end
  end.

(** The password [automated_getpass] selects for a prompt. *)
Definition select_password (passwords_dict : gmap string string)
    (prompt : string) : string :=
  if contains "admin" (lower prompt) || contains "administrator" (lower prompt)
  then default "" (passwords_dict !! "admin_password")
  else if existsb (λ keyword, contains keyword (lower prompt))
                  ["prism"; "pc_"; "enter password for"]
  then default "" (passwords_dict !! "pc_password")
  else default "" (passwords_dict !! "admin_password").

(** [automated_getpass(prompt)] *)
Definition automated_getpass (passwords_dict : gmap string string)
    (prompt : string) : M session string :=
  let password := select_password passwords_dict prompt in
  print (prompt +:+ stars (String.length password)) ;;
  mret password.

(** [n] calls of [input], one per prompt, collecting the answers. *)
Fixpoint ask_all (depth : nat) (prompts : list string)
  : M session (list string) :=
  match prompts with
  | [] => mret []
  | p :: ps =>
      a ← call_input depth p;
      rest ← ask_all depth ps;
      mret (a :: rest)
  end.

End Driver.

(** ** The in-process execution strategy
    ([run_automated_deployment] of [deploy_vm_automated_v2.py] and
    [deploy_vm_automated_v3.py])

    The interpreter's process-wide names are fields of [globals]; function
    values are taken from an arbitrary type [callable].  The driven
    program [deploy_win_vm.py] is not part of this repository: it is an
    arbitrary computation [exec_module] on the globals, free to rebind any
    of them and to return or raise. *)

Module InProcess.
Import Py Text.

Section Wrapper.
Context {callable world : Type}.

Record globals := {
  builtins_input : callable;
  getpass_getpass : callable;
  builtins_print : callable;
  sys_argv : list string;
  rest : world;                 (* terminal, files, captured output *)
}.

Definition set_input (f : callable) : M globals unit :=
  modify (λ g, {| builtins_input := f;
                  getpass_getpass := getpass_getpass g;
                  builtins_print := builtins_print g;
                  sys_argv := sys_argv g;
                  rest := rest g |}).

Definition set_getpass (f : callable) : M globals unit :=
  modify (λ g, {| builtins_input := builtins_input g;
                  getpass_getpass := f;
                  builtins_print := builtins_print g;
                  sys_argv := sys_argv g;
                  rest := rest g |}).

Definition set_print (f : callable) : M globals unit :=
  modify (λ g, {| builtins_input := builtins_input g;
                  getpass_getpass := getpass_getpass g;
                  builtins_print := f;
                  sys_argv := sys_argv g;
                  rest := rest g |}).

Definition set_argv (argv : list string) : M globals unit :=
  modify (λ g, {| builtins_input := builtins_input g;
                  getpass_getpass := getpass_getpass g;
                  builtins_print := builtins_print g;
                  sys_argv := argv;
                  rest := rest g |}).

(** The three prompt primitives of a state. *)
Definition primitives (g : globals) : callable * callable * callable :=
  (builtins_input g, getpass_getpass g, builtins_print g).

(** A computation that leaves the three names as it found them. *)
Definition preserves {A} (m : M globals A) : Prop :=
  ∀ g, primitives (snd (run m g)) = primitives g.

(** The closures the wrapper installs. *)
Variable create_automated_input_function : list string → callable.
Variable create_automated_getpass_function : gmap string string → callable.
Variable capture_print : callable.

(** A call [print(msg)], whatever [print] is bound to at that moment. *)
Variable print : string → M globals unit.

(** [spec_from_file_location(..)] and [module_from_spec(spec)]. *)
Variable load_module : M globals unit.

(** [spec.loader.exec_module(deploy_module)]: the driven program. *)
Variable exec_module : M globals unit.

(** [with open('deployment_results.txt', 'w') as f: f.write(..)] *)
Variable write_results : M globals unit.

(** The closure variables [vm_uuid] and [task_uuid] of [capture_print]. *)
Variables vm_uuid task_uuid : globals → option string.

(** [traceback.format_exc()] *)
Variable format_exc : exn → string.

(** The block that runs the driven program with [--deploy]. *)
Definition run_deploy (body : M globals unit) : M globals unit :=
  original_argv ← gets sys_argv;
  try_finally
    (set_argv ["deploy_win_vm.py"; "--deploy"] ;; body)
    (set_argv original_argv).

(** [if not automation_data]: no file, or an empty JSON object. *)
Definition falsy (automation_data : option (gmap string string)) : bool :=
  match automation_data with
  | None => true
  | Some d => bool_decide (d = ∅)
  end.

Definition interactive_mode : M globals Z :=
  print "[ERROR] No automation data found. Running in interactive mode." ;;
  run_deploy (load_module ;; exec_module) ;;
  mret 0.

(** ['*' * len(p) if p else 'Not provided'] *)
Definition masked (p : string) : string :=
  if String.eqb p "" then "Not provided" else stars (String.length p).

(** [str(x)] of a captured identifier. *)
Definition str (x : option string) : string := default "None" x.

Definition truthy (x : option string) : bool :=
  match x with
  | Some s => negb (String.eqb s "")
  | None => false
  end.

(** The lines of both revisions up to the patching. *)
Definition announce (data : gmap string string)
  : M globals (list string * gmap string string) :=
  print ">>> Running VM deployment in automation mode..." ;;
  print ("   VM Name: " +:+ default "N/A" (data !! "vm_name")) ;;
  let inputs_queue :=
    [default "" (data !! "vm_name");
     default "y" (data !! "proceed_deployment")] in
  let passwords : gmap string string :=
    <["admin_password" := default "" (data !! "admin_password")]>
      (<["pc_password" := default "" (data !! "pc_password")]> ∅) in
  print ">>> Password automation configured:" ;;
  print ("   VM Admin Password: " +:+
         masked (default "" (passwords !! "admin_password"))) ;;
  print ("   Prism Central Password: " +:+
         masked (default "" (passwords !! "pc_password"))) ;;
  mret (inputs_queue, passwords).

(** [run_automated_deployment()] of [deploy_vm_automated_v3.py];
    [automation_data] is what [get_automation_inputs()] returned. *)
Definition run_automated_deployment_v3
    (automation_data : option (gmap string string)) : M globals Z :=
  if falsy automation_data then interactive_mode
  else
    '(inputs_queue, passwords) ← announce (default ∅ automation_data);
    original_input ← gets builtins_input;
    original_getpass ← gets getpass_getpass;
    try_finally
      (try_except
         (set_input (create_automated_input_function inputs_queue) ;;
          set_getpass (create_automated_getpass_function passwords) ;;
          print ">>> Patched input functions for automation" ;;
          run_deploy (load_module ;; exec_module) ;;
          try_except
            (write_results ;;
             print "VM UUID: [SUCCESS]" ;;
             print "Task UUID: [SUCCESS]")
            (λ _, print "VM UUID: " ;; print "Task UUID: ") ;;
          print ">>> Automated deployment completed" ;;
          mret 0)
         (λ e,
            print ("[ERROR] Error during automated deployment: " +:+ text e) ;;
            mret 1))
      (set_input original_input ;;
       set_getpass original_getpass ;;
       print ">>> Restored original input functions").

(** [run_automated_deployment()] of [deploy_vm_automated_v2.py]. *)
Definition run_automated_deployment_v2
    (automation_data : option (gmap string string)) : M globals Z :=
  if falsy automation_data then interactive_mode
  else
    '(inputs_queue, passwords) ← announce (default ∅ automation_data);
    original_input ← gets builtins_input;
    original_getpass ← gets getpass_getpass;
    original_print ← gets builtins_print;
    try_finally
      (try_except
         (set_input (create_automated_input_function inputs_queue) ;;
          set_getpass (create_automated_getpass_function passwords) ;;
          set_print capture_print ;;
          print ">>> Patched input functions for automation" ;;
          run_deploy
            (print "[DEBUG] About to execute deploy_win_vm.py --deploy" ;;
             load_module ;;
             print "[DEBUG] Executing deploy_win_vm module" ;;
             exec_module ;;
             print "[DEBUG] deploy_win_vm module execution completed") ;;
          captured_vm ← gets vm_uuid;
          captured_task ← gets task_uuid;
          print ("[DEBUG] vm_uuid captured: " +:+ str captured_vm) ;;
          print ("[DEBUG] task_uuid captured: " +:+ str captured_task) ;;
          (if truthy captured_vm
           then print ("VM UUID: " +:+ str captured_vm)
           else print "VM UUID: ") ;;
          (if truthy captured_task
           then print ("Task UUID: " +:+ str captured_task)
           else print "Task UUID: ") ;;
          print ">>> Automated deployment completed" ;;
          mret 0)
         (λ e,
            print ("[ERROR] Error during automated deployment: " +:+ text e) ;;
            print ("[ERROR] Exception type: " +:+ type_name e) ;;
            print ("[ERROR] Traceback: " +:+ format_exc e) ;;
            mret 1))
      (set_input original_input ;;
       set_getpass original_getpass ;;
       set_print original_print ;;
       print ">>> Restored original input functions").

End Wrapper.

Global Arguments globals : clear implicits.

End InProcess.

(** ** The output capture of [deploy_vm_automated_v2.py]

    [capture_print] is bound to [builtins.print] while the driven program
    runs.  The calls of [print] in its own body look the name up in
    [builtins] like any other call, and so reach [capture_print] again. *)

Module Capture.
Import Py Text.

Record capture := {
  vm_uuid : option string;      (* the closure variable, None at first *)
  task_uuid : option string;
  stdout : string;
}.

Definition double_quote : ascii := "034"%char.
Definition backslash : ascii := "092"%char.

(** The digit of [n < 16] in lower-case hexadecimal. *)
Definition hex_digit (n : N) : ascii :=
  if (n <? 10)%N then ascii_of_N (48 + n) else ascii_of_N (87 + n).

(** [c.isprintable()] on the code points below 256. *)
Definition printable (c : ascii) : bool :=
  let n := N_of_ascii c in
  ((32 <=? n) && (n <? 127) || (161 <=? n) && negb (n =? 173))%N.

(** How [repr] writes one character inside the quotes [quote]. *)
Definition escape (quote c : ascii) : string :=
  let n := N_of_ascii c in
  if Ascii.eqb c quote || Ascii.eqb c backslash
  then String backslash (String c "")
  else if (n =? 9)%N then String backslash "t"
  else if (n =? 10)%N then String backslash "n"
  else if (n =? 13)%N then String backslash "r"
  else if printable c then String c ""
  else String backslash
         (String "x" (String (hex_digit (n / 16)) (String (hex_digit (n mod 16)) ""))).

Fixpoint escape_all (quote : ascii) (s : string) : string :=
  match s with
  | EmptyString => EmptyString
  | String c s' => escape quote c +:+ escape_all quote s'
  end.

(** [repr(s)] of a string: single quotes, unless the string contains a
    single quote and no double quote. *)
Definition repr (s : string) : string :=
  let quote :=
    if contains "'" s && negb (contains (String double_quote "") s)
    then double_quote else "'"%char in
  String quote (escape_all quote s +:+ String quote "").

(** A word that [repr] copies unchanged, whichever quotes it chooses. *)
Definition plain (w : string) : Prop :=
  escape_all "'" w = w ∧ escape_all double_quote w = w.

(** The class [\s] on the code points below 256. *)
Definition is_space (c : ascii) : bool :=
  let n := N_of_ascii c in
  ((9 <=? n) && (n <=? 13) || (28 <=? n) && (n <=? 32) ||
   (n =? 133) || (n =? 160))%N.

(** The class [[a-fA-F0-9-]]. *)
Definition hex_or_dash (c : ascii) : bool := any_hex c || dash c.

Fixpoint drop_while (cls : char_class) (s : string) : string :=
  match s with
  | EmptyString => EmptyString
  | String c s' => if cls c then drop_while cls s' else s
  end.

Fixpoint take_while (cls : char_class) (s : string) : string :=
  match s with
  | EmptyString => EmptyString
  | String c s' => if cls c then String c (take_while cls s') else EmptyString
  end.

Fixpoint drop_prefix (p s : string) : option string :=
  match p, s with
  | EmptyString, _ => Some s
  | String _ _, EmptyString => None
  | String a p', String b s' =>
      if Ascii.eqb a b then drop_prefix p' s' else None
  end.

(** A match of [label\s*([a-fA-F0-9-]+)] at the start of [s]: group 1.
    The blanks and the group are both taken greedily; giving back a blank
    cannot help, since no blank is in the group's class. *)
Definition match_label (label s : string) : option string :=
  match drop_prefix label s with
  | Some rest =>
      match take_while hex_or_dash (drop_while is_space rest) with
      | EmptyString => None
      | g => Some g
      end
  | None => None
  end.

(** [re.search(label + r'\s*([a-fA-F0-9-]+)', s)]: group 1 of the leftmost
    match. *)
Fixpoint search_label (label s : string) : option string :=
  match match_label label s with
  | Some g => Some g
  | None =>
      match s with
      | EmptyString => None
      | String _ s' => search_label label s'
      end
  end.

(** [' '.join(args)] *)
Fixpoint join_args (args : list string) : string :=
  match args with
  | [] => EmptyString
  | [a] => a
  | a :: args' => a +:+ " " +:+ join_args args'
  end.

Definition set_vm_uuid (v : string) : M capture unit :=
  modify (λ st, {| vm_uuid := Some v; task_uuid := task_uuid st;
                   stdout := stdout st |}).

Definition set_task_uuid (v : string) : M capture unit :=
  modify (λ st, {| vm_uuid := vm_uuid st; task_uuid := Some v;
                   stdout := stdout st |}).

(** [original_print] applied to the arguments: the interpreter's own
    [print]. *)
Definition original_print (args : list string) : M capture unit :=
  modify (λ st, {| vm_uuid := vm_uuid st; task_uuid := task_uuid st;
                   stdout := stdout st +:+ join_args args +:+ String newline "" |}).

Definition mentions_uuid (message : string) : bool :=
  existsb (λ uuid_keyword, contains uuid_keyword message)
          ["VM UUID"; "Task UUID"; "UUID:"].

(** The body of [capture_print], applied to the positional arguments;
    [print] is what the name [print] is bound to when the body runs. *)
Definition capture_print (print : string → M capture unit)
    (args : list string) : M capture unit :=
  let message := join_args args in
  (if mentions_uuid message
   then print ("[DEBUG] Captured print: " +:+ repr message)
   else mret tt) ;;
  (if contains "VM UUID:" message then
     match search_label "VM UUID:" message with
     | Some g => set_vm_uuid g ;; print ("[DEBUG] VM UUID matched: " +:+ g)
     | None => print ("[DEBUG] VM UUID not matched in: " +:+ repr message)
     end
   else mret tt) ;;
  (if contains "Task UUID:" message then
     match search_label "Task UUID:" message with
     | Some g => set_task_uuid g ;; print ("[DEBUG] Task UUID matched: " +:+ g)
     | None => print ("[DEBUG] Task UUID not matched in: " +:+ repr message)
     end
   else mret tt) ;;
  original_print args.

(** A call of [print] while [builtins.print] is [capture_print], with
    [depth] frames left before the interpreter raises [RecursionError]. *)
Fixpoint call_print (depth : nat) (args : list string) : M capture unit :=
  match depth with
  | O => raise RecursionError
  | S depth' => capture_print (λ msg, call_print depth' [msg]) args
  end.

End Capture.

(** ** Concrete inputs used by the examples below *)

Module Samples.
Import Text Prism.

Definition nl : string := String newline "".

(** Two labelled lines for the same label. *)
Definition two_vm_lines : string :=
  "VM UUID: 11111111-2222-3333-4444-555555555555" +:+ nl +:+
  "VM UUID: aaaaaaaa-bbbb-cccc-dddd-eeeeeeeeeeee".

(** A labelled line whose identifier is written in capitals. *)
Definition upper_case_line : string :=
  "VM UUID: AAAAAAAA-BBBB-CCCC-DDDD-EEEEEEEEEEEE".

(** A powered-on VM named [win-vm] with the given interfaces. *)
Definition vm_with (nics : list nic) : vm_data :=
  {| spec := Some {| name := Some "win-vm";
                     resources := Some {| power_state := Some "ON" |} |};
     status := Some {| status_res := Some {| nic_list := Some nics |} |} |}.

(** One interface with one endpoint. *)
Definition one_endpoint (a category : string) : vm_data :=
  vm_with [ {| ip_endpoint_list :=
                 Some [ {| ip := Some a; type := Some category |} ] |} ].

(** A remote whose VM only ever reports a LEARNED address. *)
Definition net_learned : network :=
  λ _ _ _, response 200 (one_endpoint "10.0.0.5" "LEARNED").

(** A remote that cannot be reached. *)
Definition net_down : network := λ _ _ _, request_exception.

(** A remote that answers once, on the second call, and fails otherwise. *)
Definition net_flaky : network :=
  λ _ _ k, if (k =? 1)%nat then response 200 (vm_with []) else request_exception.

(** A remote whose VM gets its address on the third call. *)
Definition net_third : network :=
  λ _ _ k, if (k =? 2)%nat then response 200 (one_endpoint "10.0.0.7" "ASSIGNED")
           else response 200 (vm_with []).

(** A small interpreter state: function values are named by strings, the
    rest of the world is the list of lines printed. *)
Definition console := InProcess.globals string (list string).

Definition fresh_console : console :=
  {| InProcess.builtins_input := "input";
     InProcess.getpass_getpass := "getpass";
     InProcess.builtins_print := "print";
     InProcess.sys_argv := ["deploy_vm_automated_v2.py"];
     InProcess.rest := [] |}.

(** [print] appends a line. *)
Definition console_print (msg : string) : Py.M console unit :=
  Py.modify (λ g,
    {| InProcess.builtins_input := InProcess.builtins_input g;
       InProcess.getpass_getpass := InProcess.getpass_getpass g;
       InProcess.builtins_print := InProcess.builtins_print g;
       InProcess.sys_argv := InProcess.sys_argv g;
       InProcess.rest := InProcess.rest g ++ [msg] |}).

(** A driven program that rebinds all three names and then calls
    [sys.exit(1)]. *)
Definition hostile_program : Py.M console unit :=
  Py.modify (λ g,
    {| InProcess.builtins_input := "hijacked";
       InProcess.getpass_getpass := "hijacked";
       InProcess.builtins_print := "hijacked";
       InProcess.sys_argv := InProcess.sys_argv g;
       InProcess.rest := InProcess.rest g |}) ;;
  Py.raise (Py.SystemExit "1").

(** The two wrappers on that console. *)
Definition console_v2 (program : Py.M console unit)
    (automation_data : option (gmap string string)) : Py.M console Z :=
  InProcess.run_automated_deployment_v2
    (λ _, "automated_input") (λ _, "automated_getpass") "capture_print"
    console_print (mret tt) program
    (λ g, None) (λ g, None) Py.text automation_data.

Definition console_v3 (program : Py.M console unit)
    (automation_data : option (gmap string string)) : Py.M console Z :=
  InProcess.run_automated_deployment_v3
    (λ _, "automated_input") (λ _, "automated_getpass")
    console_print (mret tt) program (mret tt) automation_data.

Definition request : option (gmap string string) :=
  Some (<["vm_name" := "vm1"]> {["admin_password" := "secret"]}).

End Samples.

(** ** More concrete inputs *)

Module MoreSamples.
Import Text Prism.

(** One interface whose first endpoint is LEARNED and whose second is
    ASSIGNED. *)
Definition learned_then_assigned : vm_data :=
  Samples.vm_with
    [ {| ip_endpoint_list :=
           Some [ {| ip := Some "10.0.0.5"; type := Some "LEARNED" |};
                  {| ip := Some "10.0.0.7"; type := Some "ASSIGNED" |} ] |} ].

Definition net_both : network := λ _ _ _, response 200 learned_then_assigned.

(** A remote that refuses the credentials. *)
Definition net_unauthorized : network :=
  λ _ _ _, response 401 (Samples.vm_with []).

Definition complete_config : gmap string string :=
  <["pc_ip" := "10.38.19.9"]> {["username" := "admin"]}.

End MoreSamples.

(** ** Ways a computation can end, whatever state it starts in *)

Module Outcomes.
Import Py.

Section Shapes.
Context {S : Type}.

(** [m] returns, in every state. *)
Definition returns_normally {A} (m : M S A) : Prop :=
  ∀ s, ∃ a s', run m s = (Returns a, s').

(** [m] returns [a], in every state. *)
Definition gives {A} (m : M S A) (a : A) : Prop :=
  ∀ s, ∃ s', run m s = (Returns a, s').

(** [m] raises [e], in every state. *)
Definition always_raises {A} (m : M S A) (e : exn) : Prop :=
  ∀ s, ∃ s', run m s = (Raises e, s').

(** [m] returns, or raises something [except Exception] catches. *)
Definition raises_only_exceptions {A} (m : M S A) : Prop :=
  ∀ s, (∃ a s', run m s = (Returns a, s')) ∨
       (∃ e s', run m s = (Raises e, s') ∧ derives_Exception e = true).

End Shapes.

End Outcomes.

(** ** A frame condition on [sys.argv] *)

Module Frames.
Import Py InProcess.

(** [m] leaves [sys.argv] as it found it, however it ends. *)
Definition keeps_argv {callable world A}
    (m : M (globals callable world) A) : Prop :=
  ∀ g, sys_argv (snd (run m g)) = sys_argv g.

End Frames.

(** ** The second revision as a whole

    [run_automated_deployment] of [deploy_vm_automated_v2.py] with the
    closures it really installs: a call of [print] goes to whatever
    [builtins.print] holds at that moment, and that is [capture_print] from
    the patch to the [finally] block. *)

Module Second.
Import Py Text InProcess.

(** The function values that can sit in the three names. *)
Inductive callable :=
| interpreter (name : string)       (* what the interpreter starts with *)
| automated_input (inputs_queue : list string)
| automated_getpass (passwords_dict : gmap string string)
| capture_print.

Abbreviation state := (globals callable Capture.capture).

(** A computation on the captured output, run inside the whole state. *)
Definition lift {A} (m : M Capture.capture A) : M state A :=
  Run (λ g,
    let '(r, w) := run m (rest g) in
    (r, {| builtins_input := builtins_input g;
           getpass_getpass := getpass_getpass g;
           builtins_print := builtins_print g;
           sys_argv := sys_argv g;
           rest := w |})).

(** A call [print(msg)], with [depth] frames left. *)
Definition print (depth : nat) (msg : string) : M state unit :=
  f ← gets builtins_print;
  match f with
  | capture_print => lift (Capture.call_print depth [msg])
  | _ => lift (Capture.original_print [msg])
  end.

(** [run_automated_deployment()] *)
Definition run_automated_deployment (depth : nat)
    (load_module exec_module : M state unit) (format_exc : exn → string)
    (automation_data : option (gmap string string)) : M state Z :=
  run_automated_deployment_v2
    automated_input automated_getpass capture_print (print depth)
    load_module exec_module
    (λ g, Capture.vm_uuid (rest g)) (λ g, Capture.task_uuid (rest g))
    format_exc automation_data.

(** [m] leaves [builtins.print] as it found it, however it ends. *)
Definition keeps_print {A} (m : M state A) : Prop :=
  ∀ g, builtins_print (snd (run m g)) = builtins_print g.

(** [builtins.print] is [capture_print]. *)
Definition capturing (g : state) : Prop := builtins_print g = capture_print.

(** Started while capturing, [m] does not return. *)
Definition never_returns {A} (m : M state A) : Prop :=
  ∀ g, capturing g → ∀ a g', run m g ≠ (Returns a, g').

Definition fresh : state :=
  {| builtins_input := interpreter "input";
     getpass_getpass := interpreter "getpass";
     builtins_print := interpreter "print";
     sys_argv := ["deploy_vm_automated_v2.py"];
     rest := {| Capture.vm_uuid := None; Capture.task_uuid := None;
                Capture.stdout := "" |} |}.

(** A driven program that prints one line. *)
Definition quiet_program (depth : nat) : M state unit :=
  print depth "Deployment finished".

End Second.

(** ** The out-of-process strategy ([deploy_vm_automated_v4.py])

    The wrapper patches nothing: [print] is the interpreter's.  What it
    touches outside itself is kept in [world]: the lines printed, the
    temporary files, and the standard input handed to each child process it
    started.  The child is a function from that input to how
    [subprocess.run] ends; the name [NamedTemporaryFile] picks, or the error
    it raises, is an input as well. *)

Module Fourth.
Import Py Text InProcess.

Record world := {
  stdout : list string;           (* the lines printed, oldest first *)
  files : gmap string string;     (* temporary files: name and content *)
  spawned : list string;          (* the input of each child started *)
}.

(** How [subprocess.run(.., timeout=300)] ends. *)
Inductive child_outcome :=
| completed (out err : string) (returncode : Z)
| timeout_expired
| spawn_error (e : exn).

Definition TimeoutExpired : exn :=
  mk_exn true "TimeoutExpired" "Command timed out after 300 seconds".

(** How [open(automation_file)] and [json.load] end. *)
Inductive file_state :=
| absent
| unreadable (e : exn)
| object (d : gmap string string).

Section Wrapper.
Context {callable : Type}.

Local Abbreviation state := (globals callable world).

Definition update (f : world → world) : M state unit :=
  modify (λ g, {| builtins_input := builtins_input g;
                  getpass_getpass := getpass_getpass g;
                  builtins_print := builtins_print g;
                  sys_argv := sys_argv g;
                  rest := f (rest g) |}).

(** [print(msg)] *)
Definition print (msg : string) : M state unit :=
  update (λ w, {| stdout := stdout w ++ [msg];
                  files := files w;
                  spawned := spawned w |}).

(** [get_automation_inputs()], given the environment and what reading the
    file named there would give. *)
Definition get_automation_inputs (environ : gmap string string)
    (fs : string → file_state) : M state (option (gmap string string)) :=
  let automation_file := default "" (environ !! "VM_AUTOMATION_FILE") in
  if String.eqb automation_file "" then mret None
  else
    match fs automation_file with
    | absent => mret None                     (* not os.path.exists(..) *)
    | unreadable e =>
        try_except (raise e)
          (λ e, print ("[ERROR] Error reading automation file: " +:+ text e) ;;
                mret None)
    | object d => mret (Some d)
    end.

(** What is written to the temporary file: each input and a line break. *)
Fixpoint lines_of (inputs : list string) : string :=
  match inputs with
  | [] => EmptyString
  | input_line :: rest => input_line +:+ String newline (lines_of rest)
  end.

(** [with tempfile.NamedTemporaryFile(mode='w', delete=False, ..) as f]:
    the loop of writes, and [f.name]. *)
Definition named_temporary_file (tmp : outcome string)
    (automation_inputs : list string) : M state string :=
  match tmp with
  | Raises e => raise e
  | Returns name =>
      update (λ w, {| stdout := stdout w;
                      files := <[name := lines_of automation_inputs]> (files w);
                      spawned := spawned w |}) ;;
      mret name
  end.

(** [subprocess.run([sys.executable, 'deploy_win_vm.py', '--deploy'],
    input=.., capture_output=True, text=True, timeout=300)] *)
Definition subprocess_run (child : string → child_outcome) (input : string)
  : M state (string * string * Z) :=
  update (λ w, {| stdout := stdout w;
                  files := files w;
                  spawned := spawned w ++ [input] |}) ;;
  match child input with
  | completed out err returncode => mret (out, err, returncode)
  | timeout_expired => raise TimeoutExpired
  | spawn_error e => raise e
  end.

(** [try: os.unlink(input_file)  except: pass] *)
Definition unlink (input_file : string) : M state unit :=
  update (λ w, {| stdout := stdout w;
                  files := delete input_file (files w);
                  spawned := spawned w |}).

(** The five answers, in the order of the driven program's prompts. *)
Definition automation_inputs_of (automation_data : gmap string string)
  : list string :=
  [default "" (automation_data !! "vm_name");
   "y";
   default "" (automation_data !! "admin_password");
   default "" (automation_data !! "admin_password");
   default "" (automation_data !! "pc_password")].

(** The text handed to the child: ['\n'.join(automation_inputs) + '\n']. *)
Definition stdin_of (automation_inputs : list string) : string :=
  join_lines automation_inputs +:+ String newline "".

(** The two lines that report the identifiers. *)
Definition report (vm_uuid task_uuid : string) : list string :=
  [ (if String.eqb vm_uuid "" then "VM UUID: " else "VM UUID: " +:+ vm_uuid);
    (if String.eqb task_uuid "" then "Task UUID: "
     else "Task UUID: " +:+ task_uuid) ].

(** [run_automated_deployment()] after its first line; [automation_data]
    is what [get_automation_inputs()] returned. *)
Definition run_with (tmp : outcome string) (child : string → child_outcome)
    (load_module exec_module : M state unit)
    (automation_data : option (gmap string string)) : M state Z :=
  if falsy automation_data then interactive_mode print load_module exec_module
  else
    let automation_data := default ∅ automation_data in
    print ">>> Running VM deployment in automation mode..." ;;
    print ("   VM Name: " +:+ default "N/A" (automation_data !! "vm_name")) ;;
    let automation_inputs := automation_inputs_of automation_data in
    print ">>> Password automation configured:" ;;
    print ("   VM Admin Password: " +:+
           masked (default "" (automation_data !! "admin_password"))) ;;
    print ("   Prism Central Password: " +:+
           masked (default "" (automation_data !! "pc_password"))) ;;
    try_except
      (input_file ← named_temporary_file tmp automation_inputs;
       try_finally
         (try_except
            ('(output, error, returncode) ←
               subprocess_run child (stdin_of automation_inputs);
             let '(vm_uuid, task_uuid) :=
               Extractor.extract_uuids_from_output output in
             print ">>> Deployment subprocess completed" ;;
             (if String.eqb vm_uuid "" then print "VM UUID: "
              else print ("VM UUID: " +:+ vm_uuid)) ;;
             (if String.eqb task_uuid "" then print "Task UUID: "
              else print ("Task UUID: " +:+ task_uuid)) ;;
             (if String.eqb error "" then mret tt
              else print ("[DEBUG] Stderr output: " +:+ error)) ;;
             mret returncode)
            (λ e,
               if String.eqb (type_name e) "TimeoutExpired"
               then print "[ERROR] Deployment timed out after 5 minutes" ;;
                    mret 1
               else print ("[ERROR] Error running deployment subprocess: "
                           +:+ text e) ;;
                    mret 1))
         (unlink input_file))
      (λ e,
         print ("[ERROR] Error during automated deployment: " +:+ text e) ;;
         mret 1).

(** [run_automated_deployment()] *)
Definition run_automated_deployment (environ : gmap string string)
    (fs : string → file_state) (tmp : outcome string)
    (child : string → child_outcome)
    (load_module exec_module : M state unit) : M state Z :=
  automation_data ← get_automation_inputs environ fs;
  run_with tmp child load_module exec_module automation_data.

(** The lines printed before the child is started. *)
Definition preamble (automation_data : gmap string string) : list string :=
  [">>> Running VM deployment in automation mode...";
   "   VM Name: " +:+ default "N/A" (automation_data !! "vm_name");
   ">>> Password automation configured:";
   "   VM Admin Password: " +:+
     masked (default "" (automation_data !! "admin_password"));
   "   Prism Central Password: " +:+
     masked (default "" (automation_data !! "pc_password"))].

End Wrapper.

End Fourth.

(** ** Concrete inputs for the out-of-process strategy *)

Module FourthSamples.
Import Py Text InProcess Fourth.

Definition answers : gmap string string :=
  <["vm_name" := "vm1"]>
    (<["admin_password" := "secret"]> {["pc_password" := "nutanix"]}).

(** A driven program that ends well and reports two identifiers. *)
Definition child_ok : string → child_outcome := λ _,
  completed
    ("Creating VM vm1" +:+ Samples.nl +:+
     "VM UUID: 11111111-2222-3333-4444-555555555555" +:+ Samples.nl +:+
     "Task UUID: aaaaaaaa-bbbb-cccc-dddd-eeeeeeeeeeee" +:+ Samples.nl)
    "" 0.

(** A driven program that does not end within five minutes. *)
Definition child_hangs : string → child_outcome := λ _, timeout_expired.

Definition host : globals unit world :=
  {| builtins_input := tt;
     getpass_getpass := tt;
     builtins_print := tt;
     sys_argv := ["deploy_vm_automated_v4.py"];
     rest := {| stdout := []; files := ∅; spawned := [] |} |}.

(** An environment that names an automation file, and a file system in
    which that file is not valid JSON. *)
Definition environ : gmap string string :=
  {["VM_AUTOMATION_FILE" := "automation.json"]}.

Definition JSONDecodeError : exn :=
  mk_exn true "JSONDecodeError" "Expecting value: line 1 column 1 (char 0)".

Definition broken_file : string → file_state := λ path,
  if String.eqb path "automation.json" then unreadable JSONDecodeError
  else absent.

(** The same environment with a file that holds a request, and with one
    that also declines the deployment. *)
Definition good_file : string → file_state := λ path,
  if String.eqb path "automation.json" then object answers else absent.

Definition declined_file : string → file_state := λ path,
  if String.eqb path "automation.json"
  then object (<["proceed_deployment" := "n"]> answers)
  else absent.

Definition tmp : outcome string := Returns "/tmp/tmpk3v9x2.txt".

End FourthSamples.
Module FourthFrames.
Import Py InProcess Fourth.

(** [m] starts no child process and leaves the files as they are, however
    it ends. *)
Definition starts_nothing {callable A}
    (m : M (globals callable world) A) : Prop :=
  ∀ g, spawned (rest (snd (run m g))) = spawned (rest g) ∧
       files (rest (snd (run m g))) = files (rest g).

End FourthFrames.

(** * Properties *)

(** ** Text *)

Module TextFacts.
Import Text.

Local Arguments String.append !_ _ / : simpl nomatch.

Lemma sapp_nil_r (s : string) : s +:+ "" = s.
Proof. induction s as [|c s IH]; cbn; [done|]. by rewrite IH. Qed.

Lemma sapp_assoc (a b c : string) : (a +:+ b) +:+ c = a +:+ b +:+ c.
Proof. induction a as [|x a IH]; cbn; [done|]. by rewrite IH. Qed.

Lemma sapp_cons (c : ascii) (a b : string) :
  String c a +:+ b = String c (a +:+ b).
Proof. done. Qed.

Lemma length_sapp (a b : string) :
  String.length (a +:+ b) = (String.length a + String.length b)%nat.
Proof. induction a as [|x a IH]; cbn; [done|]. by rewrite IH. Qed.

Lemma startswith_spec (p s : string) :
  startswith p s = true ↔ ∃ post, s = p +:+ post.
Proof.
  revert s. induction p as [|a p IH]; intros s; cbn.
  - split; [intros _; by exists s | done].
  - destruct s as [|b s].
    + split; [done | intros [post Hp]; discriminate Hp].
    + rewrite andb_true_iff, Ascii.eqb_eq, IH. split.
      * intros [-> [post ->]]. by exists post.
      * intros [post Hp]. injection Hp as -> ->. eauto.
Qed.

Lemma contains_spec (needle s : string) :
  contains needle s = true ↔ substring_of needle s.
Proof.
  unfold substring_of. induction s as [|c s IH].
  - cbn. rewrite orb_false_r, startswith_spec. split.
    + intros [post Hp]. by exists "", post.
    + intros (pre & post & Hp). destruct pre as [|x pre].
      * by exists post.
      * discriminate Hp.
  - cbn [contains]. rewrite orb_true_iff, IH, startswith_spec. split.
    + intros [[post Hp] | (pre & post & ->)].
      * by exists "", post.
      * by exists (String c pre), post.
    + intros (pre & post & Hp). destruct pre as [|x pre].
      * left. by exists post.
      * right. injection Hp as -> ->. by exists pre, post.
Qed.

Lemma length_stars (n : nat) : String.length (stars n) = n.
Proof. induction n as [|n IH]; cbn; [done|]. by rewrite IH. Qed.

Lemma all_in_stars (n : nat) :
  all_in (λ c, Ascii.eqb c "*"%char) (stars n) = true.
Proof. induction n as [|n IH]; cbn; done. Qed.

(** A match is a prefix of the text, as long as the pattern, and each of
    its characters is in the class at its position. *)
Lemma re_match_sound (pat : list char_class) (s m : string) :
  re_match pat s = Some m →
  (∃ post, s = m +:+ post) ∧ String.length m = length pat.
Proof.
  revert s m. induction pat as [|cls pat IH]; intros s m; cbn.
  - intros [= <-]. split; [by exists s | done].
  - destruct s as [|c s]; [done|].
    destruct (cls c); [|done].
    destruct (re_match pat s) as [m'|] eqn:Hm; [|done].
    intros [= <-]. destruct (IH _ _ Hm) as [[post ->] Hl].
    split; [by exists post | cbn; by rewrite Hl].
Qed.

Lemma re_match_replicate (n : nat) (hex : char_class)
    (pat : list char_class) (s m : string) :
  re_match (replicate n hex ++ pat) s = Some m →
  ∃ g m' s', m = g +:+ m' ∧ s = g +:+ s' ∧ String.length g = n ∧
             all_in hex g = true ∧ re_match pat s' = Some m'.
Proof.
  revert s m. induction n as [|n IH]; intros s m; cbn [replicate app].
  - intros Hm. by exists "", m, s.
  - cbn [re_match]. destruct s as [|c s]; [done|].
    destruct (hex c) eqn:Hc; [|done].
    destruct (re_match (replicate n hex ++ pat) s) as [m0|] eqn:Hm; [|done].
    intros [= <-].
    destruct (IH _ _ Hm) as (g & m' & s' & -> & -> & Hl & Ha & Hr).
    exists (String c g), m', s'. cbn. rewrite Hc, Ha, Hl. done.
Qed.

Lemma re_match_dash (pat : list char_class) (s m : string) :
  re_match (dash :: pat) s = Some m →
  ∃ m' s', m = "-" +:+ m' ∧ s = "-" +:+ s' ∧ re_match pat s' = Some m'.
Proof.
  cbn. destruct s as [|c s]; [done|].
  destruct (dash c) eqn:Hc; [|done].
  apply Ascii.eqb_eq in Hc as ->.
  destruct (re_match pat s) as [m'|] eqn:Hm; [|done].
  intros [= <-]. by exists m', s.
Qed.

(** Whatever matches the grouping over [hex] has the 8-4-4-4-12 shape. *)
Lemma re_match_grouping (hex : char_class) (s m : string) :
  re_match (grouping hex) s = Some m → uuid_shape hex m.
Proof.
  unfold grouping. intros H.
  apply re_match_replicate in H as (g1 & m1 & s1 & -> & -> & L1 & A1 & H).
  apply re_match_dash in H as (m & s & -> & -> & H).
  apply re_match_replicate in H as (g2 & m2 & s2 & -> & -> & L2 & A2 & H).
  apply re_match_dash in H as (m & s & -> & -> & H).
  apply re_match_replicate in H as (g3 & m3 & s3 & -> & -> & L3 & A3 & H).
  apply re_match_dash in H as (m & s & -> & -> & H).
  apply re_match_replicate in H as (g4 & m4 & s4 & -> & -> & L4 & A4 & H).
  apply re_match_dash in H as (m & s & -> & -> & H).
  rewrite <- (List.app_nil_r (replicate 12 hex)) in H.
  apply re_match_replicate in H as (g5 & m5 & s5 & -> & -> & L5 & A5 & H).
  cbn in H. injection H as <-. rewrite sapp_nil_r.
  exists g1, g2, g3, g4, g5. rewrite A1, A2, A3, A4, A5. done.
Qed.

(** [re.search] returns a match of the pattern at some position. *)
Lemma re_search_sound (pat : list char_class) (s m : string) :
  re_search pat s = Some m →
  ∃ pre post, s = pre +:+ post ∧ re_match pat post = Some m.
Proof.
  induction s as [|c s IH]; cbn.
  - destruct (re_match pat "") as [m0|] eqn:Hm; [|done].
    intros [= <-]. by exists "", "".
  - destruct (re_match pat (String c s)) as [m0|] eqn:Hm.
    + intros [= <-]. by exists "", (String c s).
    + intros (pre & post & -> & Hp)%IH. by exists (String c pre), post.
Qed.

(** [re.search] finds nothing only if no position matches. *)
Lemma re_search_none (pat : list char_class) (s pre post : string) :
  re_search pat s = None → s = pre +:+ post → re_match pat post = None.
Proof.
  revert pre. induction s as [|c s IH]; intros pre; cbn.
  - destruct (re_match pat "") eqn:Hm; [done|]. intros _ Hs.
    destruct pre; [|done]. cbn in Hs. by subst.
  - destruct (re_match pat (String c s)) eqn:Hm; [done|]. intros Hn Hs.
    destruct pre as [|x pre]; cbn in Hs.
    + by subst.
    + injection Hs as -> ->. by eapply IH.
Qed.

End TextFacts.

(** ** The output extractor *)

Module ExtractorFacts.
Import Text TextFacts Extractor Samples.

Lemma scan_line_eq (vm task line : string) :
  scan_line (vm, task) line =
  (default vm (vm_match line), default task (task_match line)).
Proof.
  unfold scan_line, vm_match, task_match.
  destruct (contains "VM UUID:" line).
  - by destruct (re_search uuid_pattern line).
  - destruct (contains "Task UUID:" line); [|done].
    by destruct (re_search uuid_pattern line).
Qed.

Lemma last_omap_snoc {A B} (f : A → option B) (l : list A) (x : A) :
  last (omap f (l ++ [x])) =
  match f x with Some y => Some y | None => last (omap f l) end.
Proof.
  rewrite omap_app. cbn. destruct (f x) as [y|]; cbn.
  - by rewrite last_snoc.
  - by rewrite List.app_nil_r.
Qed.

(** The loop keeps, for each label, what the last contributing line gave. *)
Lemma foldl_scan_line (lines : list string) (vm task : string) :
  foldl scan_line (vm, task) lines =
  (default vm (last (omap vm_match lines)),
   default task (last (omap task_match lines))).
Proof.
  induction lines as [|line lines IH] using rev_ind; [done|].
  rewrite foldl_app. cbn [foldl]. rewrite IH, scan_line_eq.
  rewrite !last_omap_snoc.
  by destruct (vm_match line), (task_match line).
Qed.

Lemma vm_match_sound (line u : string) :
  vm_match line = Some u →
  substring_of "VM UUID:" line ∧ substring_of u line ∧ uuid_shape lower_hex u.
Proof.
  unfold vm_match. destruct (contains "VM UUID:" line) eqn:Hc; [|done].
  intros Hs. apply contains_spec in Hc. split; [done|].
  apply re_search_sound in Hs as (pre & post & -> & Hm).
  split; [|by eapply re_match_grouping].
  apply re_match_sound in Hm as [[post' ->] _]. by exists pre, post'.
Qed.

Lemma task_match_sound (line u : string) :
  task_match line = Some u →
  substring_of "Task UUID:" line ∧ substring_of u line ∧ uuid_shape lower_hex u.
Proof.
  unfold task_match. destruct (contains "VM UUID:" line); [done|].
  destruct (contains "Task UUID:" line) eqn:Hc; [|done].
  intros Hs. apply contains_spec in Hc. split; [done|].
  apply re_search_sound in Hs as (pre & post & -> & Hm).
  split; [|by eapply re_match_grouping].
  apply re_match_sound in Hm as [[post' ->] _]. by exists pre, post'.
Qed.

Lemma last_omap_elem {A B} (f : A → option B) (l : list A) (y : B) :
  last (omap f l) = Some y → ∃ x, x ∈ l ∧ f x = Some y.
Proof.
  intros H. apply last_Some_elem_of in H.
  apply list_elem_of_omap in H. done.
Qed.

Lemma last_omap_none {A B} (f : A → option B) (l : list A) :
  last (omap f l) = None ↔ ∀ x, x ∈ l → f x = None.
Proof.
  rewrite last_None. split.
  - intros H x Hx. destruct (f x) as [y|] eqn:Hf; [|done].
    assert (y ∈ omap f l) as Hy by (apply list_elem_of_omap; eauto).
    rewrite H in Hy. by apply elem_of_nil in Hy.
  - intros H. induction l as [|x l IH]; [done|]. cbn.
    rewrite (H x) by left. apply IH. intros z Hz. apply H. by right.
Qed.

(** C2, as the specification states it, fails: of two [VM UUID:] lines
    with an identifier each, the extractor keeps the second, not the first. *)
Lemma first_match_is_not_retained :
  head (omap vm_match (split_lines two_vm_lines))
    = Some "11111111-2222-3333-4444-555555555555" ∧
  fst (extract_uuids_from_output two_vm_lines)
    = "aaaaaaaa-bbbb-cccc-dddd-eeeeeeeeeeee" ∧
  fst (extract_uuids_from_output two_vm_lines)
    ≠ "11111111-2222-3333-4444-555555555555".
Proof. vm_compute. repeat split; discriminate. Qed.

(** C2 (amended): for every input text and each of the two labels, the
    extractor retains the identifier of the last line that carries the
    label and contains a match; every earlier match for that label is
    overwritten.  A line carrying both labels counts for [VM UUID:] only. *)
Theorem last_match_is_retained (output_text : string) :
  extract_uuids_from_output output_text =
  (default "" (last (omap vm_match (split_lines output_text))),
   default "" (last (omap task_match (split_lines output_text)))).
Proof. unfold extract_uuids_from_output. apply foldl_scan_line. Qed.



End ExtractorFacts.

(** ** The readiness poller *)

Module PollerFacts.
Import Prism Details Poller.

Lemma scan_endpoints_find (accept : string → bool) (l : list ip_endpoint) :
  scan_endpoints accept l = List.find (usable accept) l ≫= ip.
Proof.
  induction l as [|e l IH]; [done|]. cbn. unfold usable.
  destruct (ip e) as [a|] eqn:Ha; cbn; [|done].
  destruct (negb (String.eqb a "") && accept (default "UNKNOWN" (type e)));
    cbn; [done|apply IH].
Qed.

Lemma find_app_none {A} (f : A → bool) (l k : list A) :
  List.find f l = None → List.find f (l ++ k) = List.find f k.
Proof.
  induction l as [|x l IH]; [done|]. cbn. destruct (f x); [done|apply IH].
Qed.

Lemma find_app_some {A} (f : A → bool) (l k : list A) (x : A) :
  List.find f l = Some x → List.find f (l ++ k) = Some x.
Proof.
  induction l as [|y l IH]; [done|]. cbn. destruct (f y); [done|apply IH].
Qed.

Lemma find_usable_ip (accept : string → bool) (l : list ip_endpoint) e :
  List.find (usable accept) l = Some e → ∃ a, ip e = Some a.
Proof.
  intros [_ H]%List.find_some. unfold usable in H.
  destruct (ip e) as [a|]; [by exists a | done].
Qed.

(** The two nested loops return the address of the first usable endpoint,
    first interface first, in listed order. *)
Lemma scan_nics_find (accept : string → bool) (l : list nic) :
  scan_nics accept l =
  List.find (usable accept)
            (concat (map (λ n, default [] (ip_endpoint_list n)) l)) ≫= ip.
Proof.
  induction l as [|n l IH]; [done|]. cbn.
  rewrite scan_endpoints_find.
  destruct (List.find (usable accept) (default [] (ip_endpoint_list n)))
    as [e|] eqn:Hf; cbn.
  - rewrite (find_app_some _ _ _ _ Hf).
    destruct (find_usable_ip _ _ _ Hf) as [a Ha]. cbn. by rewrite Ha.
  - by rewrite find_app_none.
Qed.

Lemma usable_category (cats : list string) (accept : string → bool)
    (e : ip_endpoint) :
  (∀ t, accept t = true ↔ t ∈ cats) →
  accept "UNKNOWN" = false →
  usable accept e = true ↔ ∃ a, address_of_category cats e a.
Proof.
  intros Hacc Hunk. unfold usable, address_of_category, truthy.
  rewrite andb_true_iff. split.
  - intros [Hip Hty]. destruct (ip e) as [a|]; [|done]. exists a.
    split; [done|]. split.
    + intros ->. done.
    + destruct (type e) as [t|]; cbn in Hty.
      * exists t. by rewrite <- Hacc.
      * by rewrite Hunk in Hty.
  - intros (a & -> & Hne & c & Hc & ->). split.
    + by destruct (String.eqb_spec a "").
    + cbn. by apply Hacc.
Qed.

Lemma usable_assigned (e : ip_endpoint) :
  usable Poller.accepted e = true ↔
  ∃ a, address_of_category ["ASSIGNED"] e a.
Proof.
  apply usable_category; [|done].
  intros t. unfold Poller.accepted. rewrite String.eqb_eq.
  rewrite list_elem_of_singleton. done.
Qed.

Lemma usable_assigned_or_learned (e : ip_endpoint) :
  usable StatusCheck.accepted e = true ↔
  ∃ a, address_of_category ["ASSIGNED"; "LEARNED"] e a.
Proof.
  apply usable_category; [|done].
  intros t. unfold StatusCheck.accepted.
  rewrite orb_true_iff, !String.eqb_eq.
  rewrite !elem_of_cons, elem_of_nil. tauto.
Qed.

Section Poll.
Import Session.
Variable net : network.
Variables vm_url username password vm_uuid : string.
Variable max_attempts : Z.

Local Abbreviation remote := (net vm_url (username, password)).
Local Abbreviation poll :=
  (Poller.poll net vm_url username password vm_uuid max_attempts).
Local Abbreviation step := (λ k, Query vm_url k :: pause max_attempts k).

Local Abbreviation miss := (Session.miss remote).
Local Abbreviation seen_after := (Session.seen_after remote).

Lemma body_200 (r : reply) (d : vm_data) :
  body r = Some d ↔ r = response 200 d.
Proof.
  destruct r as [|c d']; cbn; [done|].
  destruct (Z.eqb_spec c 200) as [->|Hc]; split; congruence.
Qed.

Lemma poll_all_miss (attempts : list nat) (seen : option vm_data) :
  (∀ k, k ∈ attempts → miss k) →
  poll attempts seen =
  (timeout_record vm_uuid (seen_after attempts seen), flat_map step attempts).
Proof.
  revert seen. induction attempts as [|k attempts IH]; intros seen Hm; [done|].
  assert (Hk : miss k) by (apply Hm; left).
  assert (Hr : ∀ j, j ∈ attempts → miss j) by (intros j Hj; apply Hm; by right).
  unfold Session.miss in Hk. cbn [Poller.poll Session.seen_after foldl flat_map].
  destruct (remote k) as [|c d] eqn:Hn; cbn [body] in *.
  - rewrite (IH _ Hr). done.
  - destruct (c =? 200).
    + rewrite (Hk d eq_refl). rewrite (IH _ Hr). done.
    + rewrite (IH _ Hr). done.
Qed.

Lemma poll_first_hit (pre post : list nat) (k : nat) (seen : option vm_data)
    (d : vm_data) (a : string) :
  (∀ j, j ∈ pre → miss j) →
  remote k = response 200 d →
  scan_nics accepted (get_nic_list d) = Some a →
  poll (pre ++ k :: post) seen =
  ({| Details.vm_uuid := vm_uuid;
      Details.vm_name := get_name d;
      Details.ip_address := Some a;
      Details.power_state := get_power_state d;
      Details.status := "SUCCESS";
      Details.timestamp := None;
      Details.message := None |},
   flat_map step pre ++ [Query vm_url k]).
Proof.
  intros Hm Hk Ha. revert seen.
  induction pre as [|j pre IH]; intros seen.
  - cbn. by rewrite Hk, Ha.
  - assert (Hj : miss j) by (apply Hm; left).
    assert (Hr : ∀ i, i ∈ pre → miss i) by (intros i Hi; apply Hm; by right).
    unfold Session.miss in Hj. cbn [app Poller.poll flat_map].
    destruct (remote j) as [|c dj] eqn:Hn; cbn [body] in *.
    + rewrite (IH Hr). by rewrite <- app_assoc.
    + destruct (c =? 200).
      * rewrite (Hj dj eq_refl). rewrite (IH Hr). by rewrite <- app_assoc.
      * rewrite (IH Hr). by rewrite <- app_assoc.
Qed.

(** Either every attempt misses, or there is a first one that does not. *)
Lemma miss_or_hit (attempts : list nat) :
  (∀ k, k ∈ attempts → miss k) ∨
  ∃ pre k post d a,
    attempts = pre ++ k :: post ∧ (∀ j, j ∈ pre → miss j) ∧
    remote k = response 200 d ∧ scan_nics accepted (get_nic_list d) = Some a.
Proof.
  induction attempts as [|k attempts IH].
  - left. intros k Hk. by apply elem_of_nil in Hk.
  - destruct (body (remote k)) as [d|] eqn:Hb.
    + destruct (scan_nics accepted (get_nic_list d)) as [a|] eqn:Ha.
      * right. exists [], k, attempts, d, a.
        apply body_200 in Hb. repeat split; try done.
        intros j Hj. by apply elem_of_nil in Hj.
      * destruct IH as [IH | (pre & j & post & dj & a & -> & Hm & Hj & Ha')].
        -- left. intros j [->|Hj]%elem_of_cons; [|by apply IH].
           intros d' Hd'. rewrite Hb in Hd'. by injection Hd' as <-.
        -- right. exists (k :: pre), j, post, dj, a. repeat split; try done.
           intros i [->|Hi]%elem_of_cons; [|by apply Hm].
           intros d' Hd'. rewrite Hb in Hd'. by injection Hd' as <-.
    + destruct IH as [IH | (pre & j & post & dj & a & -> & Hm & Hj & Ha')].
      * left. intros j [->|Hj]%elem_of_cons; [|by apply IH].
        intros d' Hd'. by rewrite Hb in Hd'.
      * right. exists (k :: pre), j, post, dj, a. repeat split; try done.
        intros i [->|Hi]%elem_of_cons; [|by apply Hm].
        intros d' Hd'. by rewrite Hb in Hd'.
Qed.

Lemma seen_after_snoc (attempts : list nat) (k : nat) (seen : option vm_data) :
  seen_after (attempts ++ [k]) seen =
  match body (remote k) with
  | Some d => Some d
  | None => seen_after attempts seen
  end.
Proof. unfold Session.seen_after. by rewrite foldl_app. Qed.

Lemma seen_after_seq (n : nat) :
  seen_after (seq 0 n) None = most_recent remote n.
Proof.
  induction n as [|n IH]; [done|].
  rewrite seq_S, seen_after_snoc. cbn. by rewrite IH.
Qed.

Lemma query_in_steps (attempts : list nat) (k : nat) :
  Query vm_url k ∈ flat_map step attempts → k ∈ attempts.
Proof.
  induction attempts as [|j attempts IH]; cbn.
  { intros H. by apply elem_of_nil in H. }
  intros [H|H]%elem_of_cons.
  - injection H as ->. left.
  - apply elem_of_app in H as [H|H]; [|right; by apply IH].
    unfold pause in H. destruct (bool_decide _); [|by apply elem_of_nil in H].
    apply list_elem_of_singleton in H. discriminate H.
Qed.

End Poll.

Lemma find_split {A} (f : A → bool) (l : list A) (x : A) :
  List.find f l = Some x →
  ∃ before after, l = before ++ x :: after ∧ f x = true ∧
                  ∀ y, y ∈ before → f y = false.
Proof.
  induction l as [|y l IH]; [done|]. cbn. destruct (f y) eqn:Hy.
  - intros [= ->]. exists [], l. repeat split; [done|].
    intros z Hz. by apply elem_of_nil in Hz.
  - intros (before & after & -> & Hx & Hb)%IH.
    exists (y :: before), after. repeat split; [done|].
    intros z [->|Hz]%elem_of_cons; [done|by apply Hb].
Qed.

Lemma find_is_some {A} (f : A → bool) (l : list A) (x : A) :
  x ∈ l → f x = true → ∃ y, List.find f l = Some y.
Proof.
  intros Hx Hf. destruct (List.find f l) as [y|] eqn:Hfind; [by exists y|].
  apply list_elem_of_In in Hx.
  by rewrite (List.find_none _ _ Hfind _ Hx) in Hf.
Qed.

(** What a usable first endpoint means in the words of the specification. *)
Lemma scan_nics_first (cats : list string) (accept : string → bool)
    (d : vm_data) (a : string) :
  (∀ e, usable accept e = true ↔ ∃ a, address_of_category cats e a) →
  scan_nics accept (get_nic_list d) = Some a →
  ∃ before e after,
    endpoints d = before ++ e :: after ∧
    (∀ e' a', e' ∈ before → ¬ address_of_category cats e' a') ∧
    address_of_category cats e a.
Proof.
  intros Hu. rewrite scan_nics_find. fold (endpoints d).
  destruct (List.find (usable accept) (endpoints d)) as [e|] eqn:Hf; [|done].
  cbn. intros Ha.
  apply find_split in Hf as (before & after & Hd & He & Hb).
  exists before, e, after. split; [done|]. split.
  - intros e' a' Hin Hcat. specialize (Hb _ Hin).
    assert (usable accept e' = true) as Hc by (apply Hu; eauto).
    by rewrite Hb in Hc.
  - apply Hu in He as (a0 & Ha0). destruct Ha0 as (Hip & ?).
    rewrite Hip in Ha. injection Ha as ->. done.
Qed.

Lemma scan_nics_some (cats : list string) (accept : string → bool)
    (d : vm_data) (e : ip_endpoint) (a : string) :
  (∀ e, usable accept e = true ↔ ∃ a, address_of_category cats e a) →
  e ∈ endpoints d → address_of_category cats e a →
  ∃ a', scan_nics accept (get_nic_list d) = Some a'.
Proof.
  intros Hu Hin Hcat. rewrite scan_nics_find. fold (endpoints d).
  assert (usable accept e = true) as He by (apply Hu; eauto).
  destruct (find_is_some _ _ _ Hin He) as [y Hy]. rewrite Hy. cbn.
  by apply find_usable_ip in Hy.
Qed.

Lemma interleave_snoc {A} (x y : A) (l : list A) :
  Session.interleave x (l ++ [y]) = flat_map (λ z, [z; x]) l ++ [y].
Proof.
  induction l as [|z l IH]; [done|].
  cbn [app flat_map]. rewrite <- IH. by destruct l.
Qed.

Lemma steps_before_last (url : string) (n : nat) (l : list nat) :
  (∀ k, k ∈ l → (k < n)%nat) →
  flat_map (λ k, Query url k :: pause (Z.of_nat (S n)) k) l =
  flat_map (λ z, [z; Sleep 30]) (Query url <$> l).
Proof.
  induction l as [|k l IH]; intros Hl; [done|]. cbn.
  rewrite IH by (intros j Hj; apply Hl; by right).
  assert (k < n)%nat by (apply Hl; left).
  unfold pause. rewrite bool_decide_eq_true_2 by lia. done.
Qed.

(** When no attempt ends the loop, queries and pauses alternate. *)
Lemma steps_interleave (url : string) (n : nat) :
  flat_map (λ k, Query url k :: pause (Z.of_nat n) k) (seq 0 n) =
  Session.interleave (Sleep 30) (Query url <$> seq 0 n).
Proof.
  destruct n as [|n]; [done|].
  rewrite seq_S, flat_map_app, fmap_app.
  change (Query url <$> [(0 + n)%nat]) with [Query url n].
  rewrite interleave_snoc. cbn.
  rewrite steps_before_last by (intros k Hk%elem_of_seq; lia).
  unfold pause. rewrite bool_decide_eq_false_2 by lia. done.
Qed.

Lemma queries_of_interleave (url : string) (l : list nat) :
  List.filter Session.is_query
    (Session.interleave (Sleep 30) (Query url <$> l)) = Query url <$> l.
Proof.
  induction l as [|k l IH]; [done|].
  destruct l as [|j l]; [done|].
  change (Session.interleave (Sleep 30) (Query url <$> k :: j :: l))
    with (Query url k :: Sleep 30 ::
          Session.interleave (Sleep 30) (Query url <$> j :: l)).
  cbn [List.filter Session.is_query]. by rewrite IH.
Qed.

Lemma sleeps_of_interleave (url : string) (l : list nat) :
  List.filter Session.is_sleep
    (Session.interleave (Sleep 30) (Query url <$> l)) =
  replicate (length l - 1) (Sleep 30).
Proof.
  induction l as [|k l IH]; [done|].
  destruct l as [|j l]; [done|].
  change (Session.interleave (Sleep 30) (Query url <$> k :: j :: l))
    with (Query url k :: Sleep 30 ::
          Session.interleave (Sleep 30) (Query url <$> j :: l)).
  cbn [List.filter Session.is_sleep]. rewrite IH. cbn.
  by rewrite Nat.sub_0_r.
Qed.

Lemma most_recent_some (remote : nat → reply) (n : nat) (d : vm_data) :
  Session.most_recent remote n = Some d →
  ∃ j, (j < n)%nat ∧ remote j = response 200 d ∧
       ∀ i d', (j < i < n)%nat → remote i ≠ response 200 d'.
Proof.
  induction n as [|n IH]; [done|]. cbn.
  destruct (Session.body (remote n)) as [d0|] eqn:Hb.
  - intros [= ->]. exists n. apply body_200 in Hb.
    repeat split; [lia|done|]. intros i d' Hi. lia.
  - intros (j & Hj & Hr & Hlater)%IH. exists j. repeat split; [lia|done|].
    intros i d' Hi Hri. destruct (decide (i = n)) as [->|Hne].
    + apply body_200 in Hri. congruence.
    + apply (Hlater i d'); [lia|done].
Qed.

Lemma most_recent_none (remote : nat → reply) (n : nat) :
  Session.most_recent remote n = None ↔
  ∀ j d, (j < n)%nat → remote j ≠ response 200 d.
Proof.
  induction n as [|n IH]; cbn.
  - split; [|done]. intros _ j d Hj. lia.
  - destruct (Session.body (remote n)) as [d0|] eqn:Hb.
    + split; [done|]. intros H. apply body_200 in Hb.
      exfalso. apply (H n d0); [lia|done].
    + rewrite IH. split.
      * intros H j d Hj Hr. destruct (decide (j = n)) as [->|Hne].
        -- apply body_200 in Hr. congruence.
        -- apply (H j d); [lia|done].
      * intros H j d Hj. apply H. lia.
Qed.

Section Claims.
Import Session Samples.
Variable net : network.
Variables pc_ip username password vm_uuid : string.
Variable max_wait_minutes : Z.

Local Abbreviation vm_url :=
  (("https://" +:+ pc_ip +:+ ":9440/api/nutanix/v3") +:+ "/vms/" +:+ vm_uuid).
Local Abbreviation remote := (net vm_url (username, password)).
Local Abbreviation polled :=
  (get_vm_ip_address net pc_ip username password vm_uuid max_wait_minutes).
Local Abbreviation checked :=
  (StatusCheck.check_vm_status net pc_ip username password vm_uuid).

(** The two shapes a polling session can take. *)
Lemma polled_cases :
  let n := Z.to_nat (max_wait_minutes * 2) in
  ((∀ k, (k < n)%nat →
         Session.miss remote k) ∧
   polled =
   (timeout_record vm_uuid (most_recent remote n),
    flat_map (λ k, Query vm_url k :: pause (max_wait_minutes * 2) k) (seq 0 n)))
  ∨
  (∃ k d a,
     (k < n)%nat ∧
     (∀ j, (j < k)%nat → Session.miss remote j) ∧
     remote k = response 200 d ∧
     scan_nics accepted (get_nic_list d) = Some a ∧
     polled =
     ({| Details.vm_uuid := vm_uuid;
         Details.vm_name := get_name d;
         Details.ip_address := Some a;
         Details.power_state := get_power_state d;
         Details.status := "SUCCESS";
         Details.timestamp := None;
         Details.message := None |},
      flat_map (λ k, Query vm_url k :: pause (max_wait_minutes * 2) k) (seq 0 k)
        ++ [Query vm_url k])).
Proof.
  intros n. unfold get_vm_ip_address. fold n.
  destruct (miss_or_hit net vm_url username password (seq 0 n))
    as [Hm | (pre & k & post & d & a & Hseq & Hm & Hk & Ha)].
  - left. split.
    + intros k Hk. apply Hm. apply elem_of_seq. lia.
    + rewrite (poll_all_miss _ _ _ _ _ _ _ _ Hm). by rewrite seen_after_seq.
  - right. exists k, d, a.
    assert (pre = seq 0 k ∧ (k < n)%nat) as [-> Hlt].
    { assert (length pre = k) as Hlen.
      { assert (seq 0 n !! length pre = Some k) as Hl
          by (rewrite Hseq; by rewrite list_lookup_middle).
        apply lookup_seq in Hl. lia. }
      assert (k < n)%nat as Hlt.
      { assert (length (seq 0 n) = n) as Hn by apply length_seq.
        rewrite Hseq, length_app in Hn. cbn in Hn. lia. }
      split; [|done].
      assert (take k (seq 0 n) = pre) as <-
        by (rewrite Hseq, <- Hlen; by rewrite take_app_length).
      rewrite take_seq. f_equal. lia. }
    repeat split; try done.
    + intros j Hj. apply Hm. apply elem_of_seq. lia.
    + rewrite Hseq. by apply poll_first_hit.
Qed.

Lemma all_queried (n k : nat) :
  (k < n)%nat →
  Query vm_url k ∈
    flat_map (λ k, Query vm_url k :: pause (max_wait_minutes * 2) k) (seq 0 n).
Proof.
  intros Hk. apply list_elem_of_In, in_flat_map. exists k. split.
  - apply in_seq. lia.
  - by left.
Qed.

(** C1 (amended): the poller [get_vm_ip_address] ends in SUCCESS if and
    only if some query it performed was answered with status 200 and a
    non-empty address of category ASSIGNED; the address returned is then the
    first such one of that answer, first interface first, in listed order.
    LEARNED counts as well only for the one-shot [check_vm_status], which
    writes a SUCCESS record if and only if its single query was answered
    with status 200 and a non-empty address of category ASSIGNED or LEARNED,
    the first such address being the one recorded. *)
Theorem success_iff_accepted_address_observed :
  let session :=
    get_vm_ip_address net pc_ip username password vm_uuid max_wait_minutes in
  (status (fst session) = "SUCCESS" ↔
   ∃ k d e a, Query vm_url k ∈ snd session ∧ remote k = response 200 d ∧
              e ∈ endpoints d ∧ address_of_category ["ASSIGNED"] e a) ∧
  (status (fst session) = "SUCCESS" →
   ∃ k d before e after a,
     last (snd session) = Some (Query vm_url k) ∧ remote k = response 200 d ∧
     endpoints d = before ++ e :: after ∧
     (∀ e' a', e' ∈ before → ¬ address_of_category ["ASSIGNED"] e' a') ∧
     address_of_category ["ASSIGNED"] e a ∧
     ip_address (fst session) = Some a) ∧
  (fst checked = true ↔
   ∃ d e a, remote 0%nat = response 200 d ∧ e ∈ endpoints d ∧
            address_of_category ["ASSIGNED"; "LEARNED"] e a) ∧
  (fst checked = true ↔
   ∃ d before e after a,
     remote 0%nat = response 200 d ∧
     endpoints d = before ++ e :: after ∧
     (∀ e' a', e' ∈ before →
               ¬ address_of_category ["ASSIGNED"; "LEARNED"] e' a') ∧
     address_of_category ["ASSIGNED"; "LEARNED"] e a ∧
     snd checked =
       [Query vm_url 0;
        WriteFile StatusCheck.result_file
          {| Details.vm_uuid := vm_uuid;
             Details.vm_name := get_name d;
             Details.ip_address := Some a;
             Details.power_state := get_power_state d;
             Details.status := "SUCCESS";
             Details.timestamp := Some "null";
             Details.message := None |}]).
Proof.
  cbv zeta. split; [|split]; [| |split].
  - destruct polled_cases as [[Hm ->] | (k & d & a & Hk & Hm & Hr & Ha & ->)];
      cbn [fst snd status timeout_record].
    + split; [done|]. intros (k & d & e & a & Hq & Hr & He & Hc). exfalso.
      apply query_in_steps, elem_of_seq in Hq.
      assert (Session.miss remote k) as Hmiss by (apply Hm; lia).
      destruct (scan_nics_some _ _ _ _ _ usable_assigned He Hc) as [a' Ha'].
      rewrite (Hmiss d) in Ha'; [done|]. by apply body_200.
    + split; [intros _|done].
      destruct (scan_nics_first _ _ _ _ usable_assigned Ha)
        as (before & e & after & Hd & _ & Hc).
      exists k, d, e, a. split_and!; [|done| |done].
      * apply elem_of_app. right. left.
      * rewrite Hd. apply elem_of_app. right. left.
  - destruct polled_cases as [[Hm ->] | (k & d & a & Hk & Hm & Hr & Ha & ->)];
      cbn [fst snd status timeout_record ip_address]; [done|].
    intros _.
    destruct (scan_nics_first _ _ _ _ usable_assigned Ha)
      as (before & e & after & Hd & Hb & Hc).
    exists k, d, before, e, after, a. rewrite last_snoc. done.
  - unfold StatusCheck.check_vm_status.
    destruct (remote 0%nat) as [|c d] eqn:Hr; cbn [fst].
    { split; [done|]. by intros (? & ? & ? & ? & _). }
    destruct (Z.eqb_spec c 200) as [->|Hc]; cbn [fst].
    2:{ split; [done|]. intros (? & ? & ? & [= ? ?] & _). done. }
    destruct (scan_nics StatusCheck.accepted (get_nic_list d)) as [a|] eqn:Ha;
      cbn [fst].
    + split; [intros _|done].
      destruct (scan_nics_first _ _ _ _ usable_assigned_or_learned Ha)
        as (before & e & after & Hd & _ & Hcat).
      exists d, e, a. split_and!; [done| |done].
      rewrite Hd. apply elem_of_app. right. left.
    + split; [done|]. intros (d' & e & a & [= <-] & He & Hcat).
      destruct (scan_nics_some _ _ _ _ _ usable_assigned_or_learned He Hcat)
        as [a' Ha']. congruence.
  - unfold StatusCheck.check_vm_status.
    destruct (remote 0%nat) as [|c d] eqn:Hr; cbn [fst snd].
    { split; [done|]. by intros (? & ? & ? & ? & ? & ? & _). }
    destruct (Z.eqb_spec c 200) as [->|Hc]; cbn [fst snd].
    2:{ split; [done|]. intros (? & ? & ? & ? & ? & [= ? ?] & _). done. }
    destruct (scan_nics StatusCheck.accepted (get_nic_list d)) as [a|] eqn:Ha;
      cbn [fst snd].
    + split; [intros _|done].
      destruct (scan_nics_first _ _ _ _ usable_assigned_or_learned Ha)
        as (before & e & after & Hd & Hb & Hcat).
      exists d, before, e, after, a. done.
    + split; [done|].
      intros (d' & before & e & after & a & [= <-] & Hd & _ & Hcat & _).
      assert (e ∈ endpoints d) as He
        by (rewrite Hd; apply elem_of_app; right; left).
      destruct (scan_nics_some _ _ _ _ _ usable_assigned_or_learned He Hcat)
        as [a' Ha']. congruence.
Qed.

(** C3: for every [max_wait_minutes ≥ 1] and every remote that never
    answers with a non-empty address of category ASSIGNED, the poller makes
    exactly [max_wait_minutes × 2] queries, numbered from 0, sleeps 30
    seconds between each two consecutive ones and nowhere else, and returns
    a record whose status is TIMEOUT. *)
Theorem timeout_after_exactly_twice_the_minutes :
  let session :=
    get_vm_ip_address net pc_ip username password vm_uuid max_wait_minutes in
  1 ≤ max_wait_minutes →
  (∀ k d e a, remote k = response 200 d → e ∈ endpoints d →
              ¬ address_of_category ["ASSIGNED"] e a) →
  let n := Z.to_nat (max_wait_minutes * 2) in
  status (fst session) = "TIMEOUT" ∧
  snd session = interleave (Sleep 30) (Query vm_url <$> seq 0 n) ∧
  Z.of_nat (length (List.filter is_query (snd session))) = max_wait_minutes * 2 ∧
  List.filter is_sleep (snd session) = replicate (n - 1) (Sleep 30).
Proof.
  cbv zeta. intros Hpos Hnever.
  set (n := Z.to_nat (max_wait_minutes * 2)).
  destruct polled_cases as [[Hm ->] | (k & d & a & Hk & Hm & Hr & Ha & ->)].
  - cbn [fst snd status timeout_record]. split; [done|].
    fold n. pose proof (steps_interleave vm_url n) as Hs.
    replace (Z.of_nat n) with (max_wait_minutes * 2) in Hs by lia.
    rewrite Hs, queries_of_interleave, sleeps_of_interleave.
    rewrite !length_fmap, !length_seq. split_and!; [done|lia|done].
  - exfalso.
    destruct (scan_nics_first _ _ _ _ usable_assigned Ha)
      as (before & e & after & Hd & _ & Hc).
    apply (Hnever k d e a Hr); [|done].
    rewrite Hd. apply elem_of_app. right. left.
Qed.

(** C7 (amended): the poller never reports ERROR: its outcome is SUCCESS
    or TIMEOUT, and a session in which every attempt failed at the transport
    level ends in TIMEOUT, with no address and the placeholder name and
    power state. *)
Theorem poller_never_reports_error :
  let session :=
    get_vm_ip_address net pc_ip username password vm_uuid max_wait_minutes in
  status (fst session) ≠ "ERROR" ∧
  (status (fst session) = "SUCCESS" ∨ status (fst session) = "TIMEOUT") ∧
  ((∀ k, Query vm_url k ∈ snd session → remote k = request_exception) →
   fst session =
   {| Details.vm_uuid := vm_uuid;
      Details.vm_name := "Unknown";
      Details.ip_address := None;
      Details.power_state := "UNKNOWN";
      Details.status := "TIMEOUT";
      Details.timestamp := None;
      Details.message := None |}).
Proof.
  cbv zeta. destruct polled_cases as [[Hm ->] | (k & d & a & Hk & Hm & Hr & Ha & ->)];
    cbn [fst snd status timeout_record].
  - split; [done|]. split; [by right|]. intros Hall.
    assert (most_recent remote (Z.to_nat (max_wait_minutes * 2)) = None) as ->.
    { apply most_recent_none. intros j d Hj Hr.
      rewrite (Hall j) in Hr; [done|]. by apply all_queried. }
    done.
  - split; [done|]. split; [by left|]. intros Hall. exfalso.
    rewrite (Hall k) in Hr; [done|]. apply elem_of_app. right. left.
Qed.


(** When the answer to attempt [k] is the first to carry a non-empty
    ASSIGNED address, the session ends in SUCCESS after exactly [k + 1]
    queries and [k] pauses, with the first such address of that answer. *)
Theorem success_at_first_assigned_answer (k : nat) (d : vm_data) :
  let session :=
    get_vm_ip_address net pc_ip username password vm_uuid max_wait_minutes in
  (Z.of_nat k < max_wait_minutes * 2) →
  (∀ j dj e a, (j < k)%nat → remote j = response 200 dj → e ∈ endpoints dj →
               ¬ address_of_category ["ASSIGNED"] e a) →
  remote k = response 200 d →
  (∃ e a, e ∈ endpoints d ∧ address_of_category ["ASSIGNED"] e a) →
  status (fst session) = "SUCCESS" ∧
  snd session = interleave (Sleep 30) (Query vm_url <$> seq 0 (S k)) ∧
  length (List.filter is_query (snd session)) = S k ∧
  ∃ before e after a,
    endpoints d = before ++ e :: after ∧
    (∀ e' a', e' ∈ before → ¬ address_of_category ["ASSIGNED"] e' a') ∧
    address_of_category ["ASSIGNED"] e a ∧
    ip_address (fst session) = Some a.
Proof.
  cbv zeta. intros Hk Hbefore Hr (e & a & He & Hcat).
  destruct (scan_nics_some _ _ _ _ _ usable_assigned He Hcat) as [a0 Ha0].
  destruct polled_cases as [[Hm _] | (k' & d' & a' & Hk' & Hm & Hr' & Ha' & ->)].
  { exfalso. assert (Session.miss remote k) as Hmiss by (apply Hm; lia).
    rewrite (Hmiss d) in Ha0; [done|]. by apply body_200. }
  assert (k' = k) as ->.
  { destruct (lt_eq_lt_dec k' k) as [[Hlt | ->] | Hgt]; [|done|].
    - exfalso.
      destruct (scan_nics_first _ _ _ _ usable_assigned Ha')
        as (b & e' & af & Hd' & _ & Hc').
      apply (Hbefore k' d' e' a' Hlt Hr'); [|done].
      rewrite Hd'. apply elem_of_app. right. left.
    - exfalso. assert (Session.miss remote k) as Hmiss by (apply Hm; lia).
      rewrite (Hmiss d) in Ha0; [done|]. by apply body_200. }
  rewrite Hr in Hr'. injection Hr' as <-.
  cbn [fst snd status ip_address]. split; [done|].
  assert (flat_map (λ j, Query vm_url j :: pause (max_wait_minutes * 2) j)
                   (seq 0 k) ++ [Query vm_url k] =
          interleave (Sleep 30) (Query vm_url <$> seq 0 (S k))) as ->.
  { rewrite seq_S, fmap_app.
    change (Query vm_url <$> [(0 + k)%nat]) with [Query vm_url k].
    rewrite interleave_snoc. f_equal.
    destruct (Z.to_nat (max_wait_minutes * 2)) as [|n'] eqn:Hn; [lia|].
    replace (max_wait_minutes * 2) with (Z.of_nat (S n')) by lia.
    apply steps_before_last. intros j Hj%elem_of_seq. lia. }
  split; [done|]. split.
  - by rewrite queries_of_interleave, length_fmap, length_seq.
  - destruct (scan_nics_first _ _ _ _ usable_assigned Ha')
      as (b & e' & af & Hd' & Hb' & Hc').
    by exists b, e', af, a'.
Qed.

End Claims.

Import Samples.

(** The third of ten allowed attempts finds the address: three queries,
    two pauses, and that address in the record. *)
Example success_on_third_attempt :
  get_vm_ip_address net_third "10.38.19.9" "admin" "secret" "uuid" 5 =
  ({| Details.vm_uuid := "uuid";
      Details.vm_name := "win-vm";
      Details.ip_address := Some "10.0.0.7";
      Details.power_state := "ON";
      Details.status := "SUCCESS";
      Details.timestamp := None;
      Details.message := None |},
   [Query "https://10.38.19.9:9440/api/nutanix/v3/vms/uuid" 0; Sleep 30;
    Query "https://10.38.19.9:9440/api/nutanix/v3/vms/uuid" 1; Sleep 30;
    Query "https://10.38.19.9:9440/api/nutanix/v3/vms/uuid" 2]).
Proof. vm_compute. reflexivity. Qed.

Lemma success_at_first_assigned_answer_witness :
  let session :=
    get_vm_ip_address net_third "10.38.19.9" "admin" "secret" "uuid" 5 in
  status (fst session) = "SUCCESS" ∧
  length (List.filter Session.is_query (snd session)) = 3%nat.
Proof.
  cbv zeta.
  destruct (success_at_first_assigned_answer
              net_third "10.38.19.9" "admin" "secret" "uuid" 5
              2%nat (one_endpoint "10.0.0.7" "ASSIGNED"))
    as (Hst & _ & Hlen & _).
  - lia.
  - intros j dj e a Hj Hr He _. unfold net_third in Hr.
    destruct (j =? 2)%nat eqn:Hj2; [apply Nat.eqb_eq in Hj2; lia|].
    injection Hr as <-. by apply elem_of_nil in He.
  - reflexivity.
  - eexists _, "10.0.0.7". split; [left|].
    split_and!; [done|done|]. exists "ASSIGNED". split; [left|done].
  - split; [exact Hst | exact Hlen].
Defined.

(** C1, as the specification states it, fails: a non-empty LEARNED
    address is observed on a successful query of the session, and the
    poller still ends in TIMEOUT. *)
Lemma learned_address_does_not_end_the_poll :
  let url := "https://10.38.19.9:9440/api/nutanix/v3/vms/uuid" in
  let polled :=
    get_vm_ip_address net_learned "10.38.19.9" "admin" "secret" "uuid" 1 in
  Query url 0 ∈ snd polled ∧
  net_learned url ("admin", "secret") 0%nat
    = response 200 (one_endpoint "10.0.0.5" "LEARNED") ∧
  (∃ e, e ∈ endpoints (one_endpoint "10.0.0.5" "LEARNED") ∧
        address_of_category ["ASSIGNED"; "LEARNED"] e "10.0.0.5") ∧
  status (fst polled) = "TIMEOUT" ∧
  status (fst polled) ≠ "SUCCESS".
Proof.
  cbv zeta. split_and!.
  - vm_compute. left.
  - done.
  - eexists. split; [left|]. split_and!; [done|done|].
    exists "LEARNED". split; [|done]. right. left.
  - by vm_compute.
  - by vm_compute.
Qed.

Lemma timeout_after_exactly_twice_the_minutes_witness :
  let polled :=
    get_vm_ip_address net_learned "10.38.19.9" "admin" "secret" "uuid" 1 in
  let url := "https://10.38.19.9:9440/api/nutanix/v3/vms/uuid" in
  status (fst polled) = "TIMEOUT" ∧
  snd polled = [Query url 0; Sleep 30; Query url 1].
Proof.
  cbv zeta.
  assert (1 ≤ 1) as Hpos by lia.
  assert (∀ k d e a,
            net_learned ("https://10.38.19.9:9440/api/nutanix/v3/vms/uuid")
                        ("admin", "secret") k = response 200 d →
            e ∈ endpoints d → ¬ address_of_category ["ASSIGNED"] e a)
    as Hnever.
  { intros k d e a [= <-] He (_ & _ & c & Hc & Hty).
    apply list_elem_of_singleton in He as ->.
    apply list_elem_of_singleton in Hc as ->. discriminate Hty. }
  destruct (timeout_after_exactly_twice_the_minutes
              net_learned "10.38.19.9" "admin" "secret" "uuid" 1 Hpos Hnever)
    as (Hst & Htr & _).
  split; [exact Hst | exact Htr].
Defined.

(** C7, as the specification states it, fails: every attempt of the
    session fails at the transport level, and the outcome is TIMEOUT, not
    ERROR. *)
Lemma unreachable_remote_ends_in_timeout :
  let polled :=
    get_vm_ip_address net_down "10.38.19.9" "admin" "secret" "uuid" 1 in
  (∀ url auth k, net_down url auth k = request_exception) ∧
  List.filter Session.is_query (snd polled) =
    [Query "https://10.38.19.9:9440/api/nutanix/v3/vms/uuid" 0;
     Query "https://10.38.19.9:9440/api/nutanix/v3/vms/uuid" 1] ∧
  status (fst polled) = "TIMEOUT" ∧
  status (fst polled) ≠ "ERROR".
Proof. cbv zeta. split_and!; [done| by vm_compute ..]. Qed.


(** C8: when [deployment_config.json] is absent, or lacks [pc_ip] or
    [username], both polling scripts exit with code 1 and have done
    nothing by then: no password prompt, no query, no file written. *)
Theorem missing_configuration_exits_before_any_call
    (net : network) (argv : list string)
    (config_file : option (gmap string string)) (typed : string) :
  (config_file = None ∨
   ∃ config, config_file = Some config ∧
             (config !! "pc_ip" = None ∨ config !! "username" = None)) →
  Poller.main net argv config_file typed = (1, []) ∧
  StatusCheck.main net argv config_file typed = (1, []) ∧
  (1 ≠ 0)%Z.
Proof.
  intros Hcfg. unfold Poller.main, StatusCheck.main.
  destruct argv as [|a0 [|a1 [|a2 argv]]]; [done..| |done].
  destruct Hcfg as [-> | (config & -> & [Hk | Hk])]; [done| |].
  - by rewrite Hk.
  - rewrite Hk. by destruct (config !! "pc_ip").
Qed.

Lemma missing_configuration_witness :
  Poller.main net_third ["get_vm_ip.py"; "uuid"] None "secret" = (1, []) ∧
  StatusCheck.main net_third ["get_vm_ip.py"; "uuid"]
    (Some {["pc_ip" := "10.38.19.9"]}) "secret" = (1, []).
Proof.
  split.
  - apply (missing_configuration_exits_before_any_call
             net_third ["get_vm_ip.py"; "uuid"] None "secret").
    left. reflexivity.
  - apply (missing_configuration_exits_before_any_call
             net_third ["get_vm_ip.py"; "uuid"]
             (Some {["pc_ip" := "10.38.19.9"]}) "secret").
    right. eexists. split; [reflexivity|]. right. reflexivity.
Defined.

(** With the configuration in place the script goes on to ask for the
    password and to query the remote. *)
Example complete_configuration_polls :
  fst (Poller.main net_third ["get_vm_ip.py"; "uuid"]
         (Some (<["pc_ip" := "10.38.19.9"]> {["username" := "admin"]}))
         "secret") = 0 ∧
  head (snd (Poller.main net_third ["get_vm_ip.py"; "uuid"]
         (Some (<["pc_ip" := "10.38.19.9"]> {["username" := "admin"]}))
         "secret")) = Some (Getpass "Enter password for admin: ").
Proof. split; reflexivity. Qed.

End PollerFacts.

(** ** The interactive session driver *)

Module DriverFacts.
Import Py Text TextFacts Driver.

Lemma run_bind {S A B} (m : M S A) (f : A → M S B) (s : S) :
  run (m ≫= f) s =
  match run m s with
  | (Returns a, s') => run (f a) s'
  | (Raises e, s') => (Raises e, s')
  end.
Proof. done. Qed.

Lemma run_modify_then {S B} (f : S → S) (k : M S B) (s : S) :
  run (modify f ;; k) s = run k (f s).
Proof. done. Qed.

Lemma run_gets_then {S A B} (f : S → A) (k : A → M S B) (s : S) :
  run (gets f ≫= k) s = run (k (f s)) s.
Proof. done. Qed.

(** With answers left, a call pops the front one, echoes the prompt
    followed by it, and returns it; the terminal is not read. *)
Lemma queued_answer_is_popped (depth : nat) (prompt a : string)
    (q typed : list string) (out : string) :
  run (call_input (S depth) prompt)
      {| builtins_input := automated; inputs_queue := a :: q;
         terminal := typed; stdout := out |} =
  (Returns a,
   {| builtins_input := automated; inputs_queue := q;
      terminal := typed;
      stdout := out +:+ (prompt +:+ a) +:+ String newline "" |}).
Proof. done. Qed.

(** Before the patch, [input] is the interpreter's: it shows the prompt
    and returns the next line typed at the terminal. *)
Lemma builtin_input_reads_the_terminal (depth : nat) (prompt line : string)
    (q typed : list string) (out : string) :
  run (call_input (S depth) prompt)
      {| builtins_input := builtin; inputs_queue := q;
         terminal := line :: typed; stdout := out |} =
  (Returns line,
   {| builtins_input := builtin; inputs_queue := q;
      terminal := typed; stdout := out +:+ prompt |}).
Proof. done. Qed.

(** The answers come out in the order in which they were queued, one per
    call, and none twice. *)
Lemma answers_in_queue_order (depth : nat) (prompts answers q typed : list string)
    (out : string) :
  length prompts = length answers →
  ∃ out',
    run (ask_all (S depth) prompts)
        {| builtins_input := automated; inputs_queue := answers ++ q;
           terminal := typed; stdout := out |} =
    (Returns answers,
     {| builtins_input := automated; inputs_queue := q;
        terminal := typed; stdout := out' |}).
Proof.
  revert answers out. induction prompts as [|p prompts IH];
    intros [|a answers] out Hlen; try discriminate Hlen.
  - by exists out.
  - injection Hlen as Hlen.
    destruct (IH answers (out +:+ (p +:+ a) +:+ String newline "") Hlen)
      as [out' Hrun].
    exists out'. cbn [ask_all]. rewrite run_bind.
    change ((a :: answers) ++ q) with (a :: (answers ++ q)).
    rewrite queued_answer_is_popped. rewrite run_bind, Hrun. done.
Qed.

Lemma answers_in_queue_order_witness :
  ∃ out',
    run (ask_all 1000 ["Enter VM name: "; "Proceed? (y/n): "])
        {| builtins_input := automated; inputs_queue := ["vm1"; "y"] ++ [];
           terminal := ["typed"]; stdout := "" |} =
    (Returns ["vm1"; "y"],
     {| builtins_input := automated; inputs_queue := [];
        terminal := ["typed"]; stdout := out' |}).
Proof.
  apply (answers_in_queue_order 999
           ["Enter VM name: "; "Proceed? (y/n): "] ["vm1"; "y"] [] ["typed"] "").
  reflexivity.
Defined.

(** C4 (the defect): once the queue is empty, a call of [input] made
    while [builtins.input] is the automated function -- which is how
    [run_automated_deployment] leaves it for the driven program -- re-enters
    the automated function until the interpreter gives up.  Whatever the
    recursion limit, the call raises [RecursionError]; nothing is read from
    the terminal, and nothing is written. *)
Theorem exhausted_queue_never_reaches_the_terminal
    (depth : nat) (prompt : string) (typed : list string) (out : string) :
  run (call_input depth prompt)
      {| builtins_input := automated; inputs_queue := [];
         terminal := typed; stdout := out |} =
  (Raises RecursionError,
   {| builtins_input := automated; inputs_queue := [];
      terminal := typed; stdout := out |}).
Proof.
  induction depth as [|depth IH]; [done|].
  cbn [call_input]. rewrite run_bind. cbn [run gets builtins_input].
  unfold automated_input. rewrite run_bind. cbn [run gets inputs_queue].
  exact IH.
Qed.

(** The two queued answers are delivered; the third prompt, which the
    comment in the source means to pass to the terminal, raises instead
    although a line is waiting there. *)
Example third_prompt_raises :
  fst (run (ask_all 1000 ["Enter VM name: "; "Proceed? (y/n): "; "Continue? "])
           {| builtins_input := automated; inputs_queue := ["vm1"; "y"];
              terminal := ["yes"]; stdout := "" |})
  = Raises RecursionError.
Proof. vm_compute. reflexivity. Qed.

Lemma select_password_cases (passwords_dict : gmap string string)
    (prompt : string) :
  let p := lower prompt in
  let admin := default "" (passwords_dict !! "admin_password") in
  let pc := default "" (passwords_dict !! "pc_password") in
  let for_admin := substring_of "admin" p ∨ substring_of "administrator" p in
  let for_platform :=
    substring_of "prism" p ∨ substring_of "pc_" p ∨
    substring_of "enter password for" p in
  (for_admin → select_password passwords_dict prompt = admin) ∧
  (¬ for_admin → for_platform → select_password passwords_dict prompt = pc) ∧
  (¬ for_admin → ¬ for_platform →
   select_password passwords_dict prompt = admin).
Proof.
  cbv zeta. unfold select_password. cbn [existsb].
  rewrite <- !contains_spec.
  destruct (contains "admin" (lower prompt)),
           (contains "administrator" (lower prompt)),
           (contains "prism" (lower prompt)),
           (contains "pc_" (lower prompt)),
           (contains "enter password for" (lower prompt)); cbn;
    split_and!; intros; try done; exfalso; intuition congruence.
Qed.


(** The prompt of the polling scripts names the account, so it selects
    the admin secret even though it asks for the platform's. *)
Example platform_prompt_for_admin_account :
  select_password
    (<["admin_password" := "A"]> {["pc_password" := "P"]})
    "Enter password for admin: " = "A" ∧
  select_password
    (<["admin_password" := "A"]> {["pc_password" := "P"]})
    "Enter password for nutanix: " = "P".
Proof. split; reflexivity. Qed.

End DriverFacts.

(** ** The in-process execution strategy *)

Module InProcessFacts.
Import Py Text InProcess DriverFacts.

Section Frame.
Context {callable world : Type}.
Variable create_automated_input_function : list string → callable.
Variable create_automated_getpass_function : gmap string string → callable.
Variable capture_print : callable.
Variable print : string → M (globals callable world) unit.
Variable load_module exec_module write_results : M (globals callable world) unit.
Variables vm_uuid task_uuid : globals callable world → option string.
Variable format_exc : exn → string.

Lemma primitives_inv (g : globals callable world) (a b c : callable) :
  primitives g = (a, b, c) →
  builtins_input g = a ∧ getpass_getpass g = b ∧ builtins_print g = c.
Proof. by intros [= -> -> ->]. Qed.

(** A call of [print] writes somewhere and may raise, but rebinds none of
    the three names. *)
Hypothesis print_frame :
  ∀ msg g, primitives (snd (run (print msg) g)) = primitives g.

Lemma preserves_ret {A} (a : A) :
  preserves (mret a : M (globals callable world) A).
Proof. done. Qed.

Lemma preserves_bind {A B} (m : M (globals callable world) A)
    (f : A → M (globals callable world) B) :
  preserves m → (∀ a, preserves (f a)) → preserves (m ≫= f).
Proof.
  intros Hm Hf g. rewrite run_bind. specialize (Hm g).
  destruct (run m g) as [[a|e] g1]; cbn [snd] in *; [|done].
  by rewrite Hf.
Qed.

Lemma preserves_print (msg : string) : preserves (print msg).
Proof. intros g. apply print_frame. Qed.

Lemma preserves_announce (data : gmap string string) :
  preserves (announce print data).
Proof.
  unfold announce.
  repeat (apply preserves_bind; [apply preserves_print | intros _]).
  apply preserves_ret.
Qed.

(** After [try: .. finally: ..] the state is the one the [finally] block
    leaves, whatever the body did. *)
Lemma try_finally_state {A} (body : M (globals callable world) A)
    (final : M (globals callable world) unit) (g : globals callable world) :
  snd (run (try_finally body final) g) = snd (run final (snd (run body g))).
Proof.
  cbn. destruct (run body g) as [r g1]. cbn.
  by destruct (run final g1) as [[[]|e] g2].
Qed.

(** The [finally] block of the second revision. *)
Lemma restore_v2 (original_input original_getpass original_print : callable)
    (msg : string) (g : globals callable world) :
  primitives
    (snd (run (set_input original_input ;;
               set_getpass original_getpass ;;
               set_print original_print ;;
               print msg) g)) =
  (original_input, original_getpass, original_print).
Proof.
  unfold set_input, set_getpass, set_print.
  rewrite !run_modify_then. by rewrite print_frame.
Qed.

(** The [finally] block of the third revision. *)
Lemma restore_v3 (original_input original_getpass : callable)
    (msg : string) (g : globals callable world) :
  primitives
    (snd (run (set_input original_input ;;
               set_getpass original_getpass ;;
               print msg) g)) =
  (original_input, original_getpass, builtins_print g).
Proof.
  unfold set_input, set_getpass.
  rewrite !run_modify_then. by rewrite print_frame.
Qed.


End Frame.

Import Samples.


(** The hostile program's [SystemExit] is not an [Exception]: it passes
    [except Exception], the [finally] block runs, and the exit goes on to
    the caller. *)
Example system_exit_propagates :
  fst (run (console_v3 hostile_program request) fresh_console)
    = Raises (SystemExit "1") ∧
  sys_argv (snd (run (console_v3 hostile_program request) fresh_console))
    = ["deploy_vm_automated_v2.py"].
Proof. split; vm_compute; reflexivity. Qed.

(** A driven program that fails with an ordinary exception makes the
    wrapper return 1. *)
Example exception_gives_exit_code_one :
  fst (run (console_v3 (raise EOFError) request) fresh_console) = Returns 1.
Proof. vm_compute. reflexivity. Qed.

(** Without automation data nothing is patched and nothing is restored. *)
Example interactive_mode_restores_nothing :
  builtins_input
    (snd (run (console_v3 hostile_program None) fresh_console)) = "hijacked".
Proof. vm_compute. reflexivity. Qed.

End InProcessFacts.

(** ** The output capture of the second revision *)

Module CaptureFacts.
Import Py Text TextFacts Capture DriverFacts.

Local Arguments String.append !_ _ / : simpl nomatch.

Lemma substring_of_trans (a b c : string) :
  substring_of a b → substring_of b c → substring_of a c.
Proof.
  intros (p1 & q1 & ->) (p2 & q2 & ->).
  exists (p2 +:+ p1), (q1 +:+ q2). by rewrite !sapp_assoc.
Qed.

Lemma substring_of_prefixed (a b p : string) :
  substring_of a b → substring_of a (p +:+ b).
Proof.
  intros (p1 & q1 & ->). exists (p +:+ p1), q1. by rewrite !sapp_assoc.
Qed.

Lemma escape_all_app (q : ascii) (a b : string) :
  escape_all q (a +:+ b) = escape_all q a +:+ escape_all q b.
Proof.
  induction a as [|c a IH]; [done|]. cbn. by rewrite IH, sapp_assoc.
Qed.

Lemma repr_keeps (w m : string) :
  plain w → substring_of w m → substring_of w (repr m).
Proof.
  intros [Hs Hd] (pre & post & ->). unfold repr.
  set (q := if _ : bool then double_quote else "'"%char).
  assert (escape_all q w = w) as Hq by (subst q; by destruct (_ && _)).
  rewrite !escape_all_app, Hq.
  exists (String q (escape_all q pre)), (escape_all q post +:+ String q "").
  cbn. by rewrite !sapp_assoc.
Qed.

(** The debug line about a message that mentions a UUID mentions one too. *)
Lemma debug_line_mentions_uuid (message : string) :
  mentions_uuid message = true →
  mentions_uuid ("[DEBUG] Captured print: " +:+ repr message) = true.
Proof.
  unfold mentions_uuid. cbn [existsb]. rewrite !orb_false_r, !orb_true_iff.
  rewrite !contains_spec.
  intros [H | [H | H]]; [left | right; left | right; right];
    apply substring_of_prefixed, repr_keeps; try done; by split.
Qed.

Lemma label_mentions_uuid (message : string) :
  mentions_uuid message = false →
  contains "VM UUID:" message = false ∧ contains "Task UUID:" message = false.
Proof.
  unfold mentions_uuid. cbn [existsb].
  rewrite !orb_false_r, !orb_false_iff. intros (Hvm & Htask & _).
  split.
  - destruct (contains "VM UUID:" message) eqn:Hc; [|done].
    apply contains_spec in Hc.
    assert (substring_of "VM UUID" message) as Hs.
    { eapply substring_of_trans; [|exact Hc]. by exists "", ":". }
    apply contains_spec in Hs. congruence.
  - destruct (contains "Task UUID:" message) eqn:Hc; [|done].
    apply contains_spec in Hc.
    assert (substring_of "Task UUID" message) as Hs.
    { eapply substring_of_trans; [|exact Hc]. by exists "", ":". }
    apply contains_spec in Hs. congruence.
Qed.

(** A message that mentions a UUID never gets past the debug line: the
    call re-enters [capture_print] with a longer message that mentions one
    as well, and so on until the interpreter gives up.  Nothing is stored
    and nothing is written. *)
Lemma labelled_message_is_never_scanned (depth : nat) (args : list string)
    (st : capture) :
  mentions_uuid (join_args args) = true →
  run (call_print depth args) st = (Raises RecursionError, st).
Proof.
  revert args. induction depth as [|depth IH]; intros args Hm; [done|].
  cbn [call_print]. unfold capture_print. rewrite Hm, run_bind.
  rewrite IH; [done|]. cbn [join_args]. by apply debug_line_mentions_uuid.
Qed.

(** Any other message goes to the interpreter's [print] unchanged. *)
Lemma plain_message_is_printed (depth : nat) (args : list string)
    (st : capture) :
  mentions_uuid (join_args args) = false →
  run (call_print (S depth) args) st = run (original_print args) st.
Proof.
  intros Hm. cbn [call_print]. unfold capture_print.
  destruct (label_mentions_uuid _ Hm) as [-> ->]. by rewrite Hm.
Qed.

(** The closure variables [vm_uuid] and [task_uuid] of the second
    revision are never assigned: whatever is printed, and whatever the
    recursion limit, they keep the value they had. *)
Theorem capture_print_stores_nothing (depth : nat) (args : list string)
    (st : capture) :
  vm_uuid (snd (run (call_print depth args) st)) = vm_uuid st ∧
  task_uuid (snd (run (call_print depth args) st)) = task_uuid st.
Proof.
  destruct (mentions_uuid (join_args args)) eqn:Hm.
  - by rewrite labelled_message_is_never_scanned.
  - destruct depth as [|depth]; [done|].
    by rewrite plain_message_is_printed.
Qed.

Example vm_uuid_line_is_lost :
  run (call_print 50 ["VM UUID: 11111111-2222-3333-4444-555555555555"])
      {| vm_uuid := None; task_uuid := None; stdout := "" |} =
  (Raises RecursionError,
   {| vm_uuid := None; task_uuid := None; stdout := "" |}).
Proof. by apply labelled_message_is_never_scanned. Qed.

End CaptureFacts.

(** ** More about the polling scripts *)

Module PollerExtras.
Import Prism Details Poller Session PollerFacts.

Section Sessions.
Variable net : network.
Variables pc_ip username password vm_uuid : string.
Variable max_wait_minutes : Z.

Local Abbreviation vm_url :=
  (("https://" +:+ pc_ip +:+ ":9440/api/nutanix/v3") +:+ "/vms/" +:+ vm_uuid).
Local Abbreviation remote := (net vm_url (username, password)).

Lemma steps_then_query (k : nat) :
  Z.of_nat k < max_wait_minutes * 2 →
  flat_map (λ j, Query vm_url j :: pause (max_wait_minutes * 2) j) (seq 0 k)
    ++ [Query vm_url k] =
  interleave (Sleep 30) (Query vm_url <$> seq 0 (S k)).
Proof.
  intros Hk. rewrite seq_S, fmap_app.
  change (Query vm_url <$> [(0 + k)%nat]) with [Query vm_url k].
  rewrite interleave_snoc. f_equal.
  destruct (Z.to_nat (max_wait_minutes * 2)) as [|n'] eqn:Hn; [lia|].
  replace (max_wait_minutes * 2) with (Z.of_nat (S n')) by lia.
  apply steps_before_last. intros j Hj%elem_of_seq. lia.
Qed.

Lemma queries_within_budget :
  (Z.of_nat
     (length (List.filter is_query
        (snd (get_vm_ip_address net pc_ip username password vm_uuid
                max_wait_minutes))))
   ≤ Z.max 0 (max_wait_minutes * 2)).
Proof.
  destruct (polled_cases net pc_ip username password vm_uuid max_wait_minutes)
    as [[Hm ->] | (k & d & a & Hk & Hm & Hr & Ha & ->)]; cbn [snd].
  - set (n := Z.to_nat (max_wait_minutes * 2)).
    assert (∀ l : list nat,
              length (List.filter is_query
                (flat_map (λ k, Query vm_url k :: pause (max_wait_minutes * 2) k) l))
              = length l) as ->.
    { induction l as [|j l IH]; [done|]. cbn. rewrite List.filter_app, length_app.
      rewrite IH. unfold pause. by destruct (bool_decide _). }
    rewrite length_seq. lia.
  - rewrite steps_then_query by lia.
    rewrite queries_of_interleave, length_fmap, length_seq. lia.
Qed.

(** Whatever the remote answers, the poller's effects are the queries
    [0 .. j-1] with a sleep of 30 between each two and none after the last;
    [j] is at most [max_wait_minutes × 2] (and 0 when that is negative), it
    is that bound when the session ends in TIMEOUT, and at least 1 when it
    ends in SUCCESS. *)
Theorem session_alternates_queries_and_sleeps :
  let session :=
    get_vm_ip_address net pc_ip username password vm_uuid max_wait_minutes in
  ∃ j : nat,
    snd session = interleave (Sleep 30) (Query vm_url <$> seq 0 j) ∧
    length (List.filter is_query (snd session)) = j ∧
    List.filter is_sleep (snd session) = replicate (j - 1) (Sleep 30) ∧
    Z.of_nat j ≤ Z.max 0 (max_wait_minutes * 2) ∧
    (status (fst session) = "TIMEOUT" → j = Z.to_nat (max_wait_minutes * 2)) ∧
    (status (fst session) = "SUCCESS" → (1 ≤ j)%nat).
Proof.
  cbv zeta.
  destruct (polled_cases net pc_ip username password vm_uuid max_wait_minutes)
    as [[Hm ->] | (k & d & a & Hk & Hm & Hr & Ha & ->)];
    cbn [fst snd status timeout_record].
  - exists (Z.to_nat (max_wait_minutes * 2)).
    set (n := Z.to_nat (max_wait_minutes * 2)).
    assert (flat_map (λ k, Query vm_url k :: pause (max_wait_minutes * 2) k)
                     (seq 0 n) =
            interleave (Sleep 30) (Query vm_url <$> seq 0 n)) as ->.
    { destruct (decide (0 ≤ max_wait_minutes * 2)) as [Hpos|Hneg].
      - pose proof (steps_interleave vm_url n) as Hs.
        replace (Z.of_nat n) with (max_wait_minutes * 2) in Hs by lia.
        exact Hs.
      - replace n with 0%nat by lia. done. }
    rewrite queries_of_interleave, sleeps_of_interleave.
    rewrite !length_fmap, !length_seq. split_and!; try done. lia.
  - exists (S k). rewrite steps_then_query by lia.
    rewrite queries_of_interleave, sleeps_of_interleave.
    rewrite !length_fmap, !length_seq. split_and!; try done; lia.
Qed.


(** When the first answer already holds a non-empty ASSIGNED address,
    [check_vm_status] run against the same remote reports success as well. *)
Theorem poller_success_implies_check_success :
  (1 ≤ max_wait_minutes) →
  (∃ d e a, remote 0%nat = response 200 d ∧ e ∈ endpoints d ∧
            address_of_category ["ASSIGNED"] e a) →
  status (fst (get_vm_ip_address net pc_ip username password vm_uuid
                 max_wait_minutes)) = "SUCCESS" ∧
  snd (get_vm_ip_address net pc_ip username password vm_uuid
         max_wait_minutes) = [Query vm_url 0] ∧
  fst (StatusCheck.check_vm_status net pc_ip username password vm_uuid) = true.
Proof.
  intros Hpos (d & e & a & Hr & He & Hcat).
  destruct (scan_nics_some _ _ _ _ _ usable_assigned He Hcat) as [a1 Ha1].
  assert (address_of_category ["ASSIGNED"; "LEARNED"] e a) as Hcat2.
  { destruct Hcat as (Hip & Hne & c & Hc & Hty). split_and!; [done..|].
    exists c. split; [|done]. apply elem_of_cons. left.
    by apply list_elem_of_singleton in Hc. }
  destruct (scan_nics_some _ _ _ _ _ usable_assigned_or_learned He Hcat2)
    as [a2 Ha2].
  unfold get_vm_ip_address, StatusCheck.check_vm_status.
  destruct (Z.to_nat (max_wait_minutes * 2)) as [|n] eqn:Hn; [lia|].
  cbn [seq Poller.poll]. rewrite Hr. cbn. rewrite Ha1, Ha2. done.
Qed.


End Sessions.

(** With one argument and a configuration that has both keys, the
    polling script asks for the password once, under a prompt that names the
    user, then runs one session with a budget of ten minutes -- at most
    twenty queries -- writes the record that session returned, once and
    last, and exits with code 0 whatever the outcome of the session. *)
Theorem poller_main_with_complete_configuration
    (net : network) (prog vm_uuid pc_ip username typed : string)
    (config : gmap string string) :
  config !! "pc_ip" = Some pc_ip →
  config !! "username" = Some username →
  let session := get_vm_ip_address net pc_ip username typed vm_uuid 10 in
  Poller.main net [prog; vm_uuid] (Some config) typed =
    (0, Getpass ("Enter password for " +:+ username +:+ ": ")
        :: snd session ++ [WriteFile "temp/vm-details.json" (fst session)]) ∧
  (length (List.filter is_query (snd session)) ≤ 20)%nat.
Proof.
  intros Hip Hu. cbv zeta. split.
  - unfold Poller.main. rewrite Hip, Hu.
    by destruct (get_vm_ip_address net pc_ip username typed vm_uuid 10).
  - pose proof (queries_within_budget net pc_ip username typed vm_uuid 10).
    lia.
Qed.

(** The status check exits with code 0 under the same conditions, after
    one password prompt and exactly one query, also when that query fails. *)
Theorem check_main_with_complete_configuration
    (net : network) (prog vm_uuid pc_ip username typed : string)
    (config : gmap string string) :
  config !! "pc_ip" = Some pc_ip →
  config !! "username" = Some username →
  let checked :=
    StatusCheck.check_vm_status net pc_ip username typed vm_uuid in
  StatusCheck.main net [prog; vm_uuid] (Some config) typed =
    (0, Getpass ("Enter password for " +:+ username +:+ ": ") :: snd checked) ∧
  length (List.filter is_query (snd checked)) = 1%nat.
Proof.
  intros Hip Hu. cbv zeta. split.
  - unfold StatusCheck.main. rewrite Hip, Hu.
    by destruct (StatusCheck.check_vm_status net pc_ip username typed vm_uuid).
  - unfold StatusCheck.check_vm_status.
    destruct (net _ _ 0%nat) as [|c d]; [done|].
    destruct (c =? 200); [|done].
    by destruct (scan_nics StatusCheck.accepted (get_nic_list d)).
Qed.

Import Samples MoreSamples.

Lemma poller_success_implies_check_success_witness :
  status (fst (get_vm_ip_address net_both "10.38.19.9" "admin" "secret"
                 "uuid" 1)) = "SUCCESS" ∧
  fst (StatusCheck.check_vm_status net_both "10.38.19.9" "admin" "secret"
         "uuid") = true.
Proof.
  destruct (poller_success_implies_check_success
              net_both "10.38.19.9" "admin" "secret" "uuid" 1)
    as (Hs & _ & Hc).
  - lia.
  - exists learned_then_assigned. eexists _, "10.0.0.7".
    split; [reflexivity|]. split; [right; left|].
    split_and!; [done|done|]. exists "ASSIGNED". split; [left|done].
  - split; [exact Hs | exact Hc].
Defined.

(** The two scripts can disagree on the address: for the same answer the
    poller returns the ASSIGNED one, the status check records the LEARNED
    one listed before it. *)
Example scripts_record_different_addresses :
  ip_address (fst (get_vm_ip_address net_both "10.38.19.9" "admin" "secret"
                     "uuid" 1)) = Some "10.0.0.7" ∧
  last (snd (StatusCheck.check_vm_status net_both "10.38.19.9" "admin"
               "secret" "uuid")) =
  Some (WriteFile "temp/vm-details.json"
          {| Details.vm_uuid := "uuid";
             Details.vm_name := "win-vm";
             Details.ip_address := Some "10.0.0.5";
             Details.power_state := "ON";
             Details.status := "SUCCESS";
             Details.timestamp := Some "null";
             Details.message := None |}).
Proof. split; vm_compute; reflexivity. Qed.


Lemma poller_main_with_complete_configuration_witness :
  fst (Poller.main net_down ["get_vm_ip.py"; "uuid"]
         (Some complete_config) "secret") = 0 ∧
  (length (List.filter is_query
     (snd (get_vm_ip_address net_down "10.38.19.9" "admin" "secret" "uuid" 10)))
   ≤ 20)%nat.
Proof.
  destruct (poller_main_with_complete_configuration
              net_down "get_vm_ip.py" "uuid" "10.38.19.9" "admin" "secret"
              complete_config) as (Hm & Hq).
  - reflexivity.
  - reflexivity.
  - split; [by rewrite Hm | exact Hq].
Defined.

Lemma check_main_with_complete_configuration_witness :
  StatusCheck.main net_down ["check_vm_status.py"; "uuid"]
    (Some complete_config) "secret" =
  (0, [Getpass "Enter password for admin: ";
       Query "https://10.38.19.9:9440/api/nutanix/v3/vms/uuid" 0]).
Proof.
  destruct (check_main_with_complete_configuration
              net_down "check_vm_status.py" "uuid" "10.38.19.9" "admin"
              "secret" complete_config) as (Hm & _).
  - reflexivity.
  - reflexivity.
  - exact Hm.
Defined.

End PollerExtras.

(** ** More about the output extractor *)

Module ExtractorExtras.
Import Text TextFacts Extractor ExtractorFacts.

Local Arguments String.append !_ _ / : simpl nomatch.

Lemma re_search_at_match (pat : list char_class) (s m : string) :
  re_match pat s = Some m → re_search pat s = Some m.
Proof. intros H. destruct s; cbn; by rewrite H. Qed.

(** [re.search] returns the match at the first position that has one. *)
Lemma re_search_leftmost (pat : list char_class) (s m : string) :
  re_search pat s = Some m →
  ∃ pre post,
    s = pre +:+ post ∧ re_match pat post = Some m ∧
    ∀ p1 p2, s = p1 +:+ p2 → (String.length p1 < String.length pre)%nat →
             re_match pat p2 = None.
Proof.
  induction s as [|c s IH]; cbn.
  - destruct (re_match pat "") as [m0|] eqn:Hm; [|done].
    intros [= <-]. exists "", "". split_and!; [done..|].
    intros p1 p2 _ Hlen. cbn in Hlen. lia.
  - destruct (re_match pat (String c s)) as [m0|] eqn:Hm.
    + intros [= <-]. exists "", (String c s). split_and!; [done..|].
      intros p1 p2 _ Hlen. cbn in Hlen. lia.
    + intros (pre & post & -> & Hp & Hleft)%IH.
      exists (String c pre), post. split_and!; [done..|].
      intros [|x p1] p2 Hs Hlen; cbn in Hs.
      * by subst p2.
      * injection Hs as -> Hs. apply (Hleft p1 p2 Hs). cbn in Hlen. lia.
Qed.

Lemma re_match_prefix_of_match (pat : list char_class) (s m : string) :
  re_match pat s = Some m → ∃ post, s = m +:+ post.
Proof. intros H. by destruct (re_match_sound _ _ _ H). Qed.

Lemma leftmost_on_line (label line u : string) (f : string → option string) :
  (∀ l v, f l = Some v →
          substring_of label l ∧ re_search uuid_pattern l = Some v) →
  f line = Some u →
  substring_of label line ∧
  ∃ pre post,
    line = pre +:+ u +:+ post ∧
    ∀ p1 p2, line = p1 +:+ p2 → (String.length p1 < String.length pre)%nat →
             re_match uuid_pattern p2 = None.
Proof.
  intros Hf Hu. destruct (Hf _ _ Hu) as [Hl Hs]. split; [done|].
  apply re_search_leftmost in Hs as (pre & post & -> & Hm & Hleft).
  destruct (re_match_prefix_of_match _ _ _ Hm) as [post' ->].
  by exists pre, post'.
Qed.


(** An identifier that stands before the label on the labelled line wins
    over the one that follows the label. *)
Example identifier_before_the_label :
  extract_uuids_from_output
    "task 0a0a0a0a-1111-2222-3333-444444444444 done, VM UUID: 11111111-2222-3333-4444-555555555555"
  = ("0a0a0a0a-1111-2222-3333-444444444444", "").
Proof. vm_compute. reflexivity. Qed.

(** *** What the wrappers print can be read back *)

Lemma all_in_app (cls : char_class) (a b : string) :
  all_in cls (a +:+ b) = all_in cls a && all_in cls b.
Proof.
  induction a as [|c a IH]; [done|]. cbn. by rewrite IH, andb_assoc.
Qed.

Lemma all_in_impl (P Q : char_class) (s : string) :
  (∀ c, P c = true → Q c = true) → all_in P s = true → all_in Q s = true.
Proof.
  intros HPQ. induction s as [|c s IH]; [done|]. cbn.
  rewrite !andb_true_iff. intros [Hc Hs]. split; [by apply HPQ | by apply IH].
Qed.

Lemma re_match_group (hex : char_class) (pat : list char_class)
    (g s : string) (n : nat) :
  String.length g = n → all_in hex g →
  re_match (replicate n hex ++ pat) (g +:+ s) =
  String.append g <$> re_match pat s.
Proof.
  intros <-. induction g as [|c g IH]; cbn.
  - intros _. by destruct (re_match pat s).
  - intros [Hc Hg]%andb_True. apply Is_true_true in Hc. rewrite Hc, (IH Hg).
    by destruct (re_match pat s).
Qed.

Lemma re_match_dash_step (pat : list char_class) (s : string) :
  re_match (dash :: pat) ("-" +:+ s) = String "-"%char <$> re_match pat s.
Proof. done. Qed.

(** A text of the 8-4-4-4-12 shape over [hex] matches the grouping, and the
    match is the text itself. *)
Lemma re_match_complete (hex : char_class) (u rest : string) :
  uuid_shape hex u → re_match (grouping hex) (u +:+ rest) = Some u.
Proof.
  intros (g1 & g2 & g3 & g4 & g5 & -> & L1 & L2 & L3 & L4 & L5 &
          A1 & A2 & A3 & A4 & A5).
  unfold grouping. rewrite !sapp_assoc.
  rewrite (re_match_group hex _ g1 _ 8 L1 A1).
  cbn [app]. rewrite re_match_dash_step.
  rewrite (re_match_group hex _ g2 _ 4 L2 A2).
  cbn [app]. rewrite re_match_dash_step.
  rewrite (re_match_group hex _ g3 _ 4 L3 A3).
  cbn [app]. rewrite re_match_dash_step.
  rewrite (re_match_group hex _ g4 _ 4 L4 A4).
  cbn [app]. rewrite re_match_dash_step.
  rewrite <- (List.app_nil_r (replicate 12 hex)).
  rewrite (re_match_group hex _ g5 _ 12 L5 A5).
  cbn. by rewrite sapp_nil_r.
Qed.

Lemma uuid_shape_chars (u : string) :
  uuid_shape lower_hex u → all_in Capture.hex_or_dash u = true.
Proof.
  intros (g1 & g2 & g3 & g4 & g5 & -> & _ & _ & _ & _ & _ &
          A1 & A2 & A3 & A4 & A5).
  assert (∀ g, all_in lower_hex g → all_in Capture.hex_or_dash g = true)
    as Hg.
  { intros g Hin%Is_true_true. revert Hin. apply all_in_impl.
    intros c Hc. unfold Capture.hex_or_dash, any_hex. by rewrite Hc. }
  rewrite !all_in_app. cbn.
  rewrite !Hg by done. done.
Qed.

Lemma contains_without_first (c : ascii) (needle s : string) :
  all_in (λ x, negb (Ascii.eqb c x)) s = true →
  contains (String c needle) s = false.
Proof.
  induction s as [|x s IH]; [done|]. cbn.
  rewrite andb_true_iff. intros [Hx Hs]. rewrite (IH Hs).
  apply negb_true_iff in Hx. by rewrite Hx.
Qed.

Lemma split_lines_single (s : string) :
  all_in (λ x, negb (Ascii.eqb x newline)) s = true → split_lines s = [s].
Proof.
  induction s as [|c s IH]; [done|]. cbn.
  rewrite andb_true_iff. intros [Hc Hs]. apply negb_true_iff in Hc.
  by rewrite Hc, (IH Hs).
Qed.

Lemma split_lines_line (a b : string) :
  all_in (λ x, negb (Ascii.eqb x newline)) a = true →
  split_lines (a +:+ String newline b) = a :: split_lines b.
Proof.
  induction a as [|c a IH]; [done|]. cbn.
  rewrite andb_true_iff. intros [Hc Ha]. apply negb_true_iff in Hc.
  by rewrite Hc, (IH Ha).
Qed.

Lemma hex_or_dash_facts (c : ascii) :
  Capture.hex_or_dash c = true →
  negb (Ascii.eqb c newline) = true ∧ negb (Ascii.eqb "V" c) = true.
Proof.
  destruct c as [[] [] [] [] [] [] [] []]; vm_compute; intros H;
    first [discriminate H | done].
Qed.

Lemma uuid_has_no_newline (u : string) :
  uuid_shape lower_hex u →
  all_in (λ x, negb (Ascii.eqb x newline)) u = true.
Proof.
  intros H%uuid_shape_chars. revert H. apply all_in_impl.
  intros c Hc. by apply hex_or_dash_facts.
Qed.

Lemma uuid_has_no_V (u : string) :
  uuid_shape lower_hex u →
  all_in (λ x, negb (Ascii.eqb "V" x)) u = true.
Proof.
  intros H%uuid_shape_chars. revert H. apply all_in_impl.
  intros c Hc. by apply hex_or_dash_facts.
Qed.

Lemma vm_line_yields (u : string) :
  uuid_shape lower_hex u →
  vm_match ("VM UUID: " +:+ u) = Some u ∧
  task_match ("VM UUID: " +:+ u) = None.
Proof.
  intros Hu. unfold vm_match, task_match.
  assert (contains "VM UUID:" ("VM UUID: " +:+ u) = true) as ->
    by (apply contains_spec; by exists "", (" " +:+ u)).
  split; [|done]. cbn.
  apply re_search_at_match.
  rewrite <- (sapp_nil_r u) at 1. by apply re_match_complete.
Qed.

Lemma task_line_yields (t : string) :
  uuid_shape lower_hex t →
  vm_match ("Task UUID: " +:+ t) = None ∧
  task_match ("Task UUID: " +:+ t) = Some t.
Proof.
  intros Ht. unfold vm_match, task_match.
  assert (contains "VM UUID:" ("Task UUID: " +:+ t) = false) as ->.
  { cbn. apply contains_without_first. by apply uuid_has_no_V. }
  split; [done|].
  assert (contains "Task UUID:" ("Task UUID: " +:+ t) = true) as ->
    by (apply contains_spec; by exists "", (" " +:+ t)).
  cbn. apply re_search_at_match.
  rewrite <- (sapp_nil_r t) at 1. by apply re_match_complete.
Qed.

(** The two lines in which the wrappers report the identifiers read back
    as those identifiers: for every pair of well-formed lower-case
    identifiers, extracting from [VM UUID: u] and [Task UUID: t], each
    followed by a line break, gives [(u, t)]. *)
Theorem reported_identifiers_read_back (u t : string) :
  uuid_shape lower_hex u → uuid_shape lower_hex t →
  extract_uuids_from_output
    (("VM UUID: " +:+ u) +:+ String newline
       (("Task UUID: " +:+ t) +:+ String newline "")) = (u, t).
Proof.
  intros Hu Ht. unfold extract_uuids_from_output.
  rewrite split_lines_line.
  2:{ rewrite all_in_app, (uuid_has_no_newline _ Hu). by vm_compute. }
  rewrite split_lines_line.
  2:{ rewrite all_in_app, (uuid_has_no_newline _ Ht). by vm_compute. }
  cbn [split_lines foldl]. rewrite !scan_line_eq.
  destruct (vm_line_yields u Hu) as [-> ->].
  destruct (task_line_yields t Ht) as [-> ->].
  done.
Qed.

Lemma reported_identifiers_read_back_witness :
  extract_uuids_from_output
    (("VM UUID: " +:+ "11111111-2222-3333-4444-555555555555") +:+
     String newline
       (("Task UUID: " +:+ "aaaaaaaa-bbbb-cccc-dddd-eeeeeeeeeeee") +:+
        String newline "")) =
  ("11111111-2222-3333-4444-555555555555",
   "aaaaaaaa-bbbb-cccc-dddd-eeeeeeeeeeee").
Proof.
  apply (reported_identifiers_read_back
           "11111111-2222-3333-4444-555555555555"
           "aaaaaaaa-bbbb-cccc-dddd-eeeeeeeeeeee").
  - exists "11111111", "2222", "3333", "4444", "555555555555".
    vm_compute. done.
  - exists "aaaaaaaa", "bbbb", "cccc", "dddd", "eeeeeeeeeeee".
    vm_compute. done.
Defined.

End ExtractorExtras.

(** ** More about the in-process strategy *)

Module OutcomeFacts.
Import Py Outcomes DriverFacts.

Section Rules.
Context {S : Type}.

Lemma gives_ret {A} (a : A) : gives (mret a : M S A) a.
Proof. intros s. by exists s. Qed.

Lemma gives_returns {A} (m : M S A) (a : A) : gives m a → returns_normally m.
Proof. intros H s. destruct (H s) as [s' Hs]. by exists a, s'. Qed.

Lemma returns_gets {A} (f : S → A) : returns_normally (gets f).
Proof. intros s. by exists (f s), s. Qed.

Lemma returns_modify (f : S → S) : returns_normally (modify f).
Proof. intros s. by exists tt, (f s). Qed.

Lemma gives_bind {A B} (m : M S A) (f : A → M S B) (b : B) :
  returns_normally m → (∀ a, gives (f a) b) → gives (m ≫= f) b.
Proof.
  intros Hm Hf s. destruct (Hm s) as (a & s1 & Hs).
  rewrite run_bind, Hs. apply Hf.
Qed.

Lemma returns_bind {A B} (m : M S A) (f : A → M S B) :
  returns_normally m → (∀ a, returns_normally (f a)) →
  returns_normally (m ≫= f).
Proof.
  intros Hm Hf s. destruct (Hm s) as (a & s1 & Hs).
  rewrite run_bind, Hs. apply Hf.
Qed.

Lemma raises_bind {A B} (m : M S A) (f : A → M S B) (e : exn) :
  always_raises m e → always_raises (m ≫= f) e.
Proof.
  intros Hm s. destruct (Hm s) as (s1 & Hs).
  rewrite run_bind, Hs. by exists s1.
Qed.

Lemma raises_after {A B} (m : M S A) (f : A → M S B) (e : exn) :
  returns_normally m → (∀ a, always_raises (f a) e) →
  always_raises (m ≫= f) e.
Proof.
  intros Hm Hf s. destruct (Hm s) as (a & s1 & Hs).
  rewrite run_bind, Hs. apply Hf.
Qed.

Lemma only_exceptions_bind {A B} (m : M S A) (f : A → M S B) :
  raises_only_exceptions m → (∀ a, returns_normally (f a)) →
  raises_only_exceptions (m ≫= f).
Proof.
  intros Hm Hf s. rewrite run_bind.
  destruct (Hm s) as [(a & s1 & ->) | (e & s1 & -> & He)].
  - left. apply Hf.
  - right. by exists e, s1.
Qed.

Lemma finally_state {A} (body : M S A) (final : M S unit) (s : S) :
  snd (run (try_finally body final) s) = snd (run final (snd (run body s))).
Proof.
  cbn. destruct (run body s) as [r s1]. cbn.
  by destruct (run final s1) as [[[]|e] s2].
Qed.

Lemma finally_gives {A} (body : M S A) (final : M S unit) (a : A) :
  gives body a → returns_normally final → gives (try_finally body final) a.
Proof.
  intros Hb Hf s. destruct (Hb s) as (s1 & Hs1).
  destruct (Hf s1) as ([] & s2 & Hs2). exists s2. cbn. by rewrite Hs1, Hs2.
Qed.

Lemma finally_returns {A} (body : M S A) (final : M S unit) :
  returns_normally body → returns_normally final →
  returns_normally (try_finally body final).
Proof.
  intros Hb Hf s. destruct (Hb s) as (a & s1 & Hs1).
  destruct (Hf s1) as ([] & s2 & Hs2). exists a, s2. cbn. by rewrite Hs1, Hs2.
Qed.

Lemma finally_raises {A} (body : M S A) (final : M S unit) (e : exn) :
  always_raises body e → returns_normally final →
  always_raises (try_finally body final) e.
Proof.
  intros Hb Hf s. destruct (Hb s) as (s1 & Hs1).
  destruct (Hf s1) as ([] & s2 & Hs2). exists s2. cbn. by rewrite Hs1, Hs2.
Qed.

Lemma except_gives {A} (body : M S A) (handler : exn → M S A) (a : A) :
  gives body a → gives (try_except body handler) a.
Proof.
  intros Hb s. destruct (Hb s) as (s1 & Hs1). exists s1. cbn. by rewrite Hs1.
Qed.

Lemma except_returns {A} (body : M S A) (handler : exn → M S A) :
  raises_only_exceptions body → (∀ e, returns_normally (handler e)) →
  returns_normally (try_except body handler).
Proof.
  intros Hb Hh s. cbn.
  destruct (Hb s) as [(a & s1 & ->) | (e & s1 & -> & ->)].
  - by exists a, s1.
  - apply Hh.
Qed.

Lemma except_handles {A} (body : M S A) (handler : exn → M S A)
    (e : exn) (a : A) :
  always_raises body e → derives_Exception e = true → gives (handler e) a →
  gives (try_except body handler) a.
Proof.
  intros Hb He Hh s. destruct (Hb s) as (s1 & Hs1). cbn.
  rewrite Hs1, He. apply Hh.
Qed.

Lemma except_passes {A} (body : M S A) (handler : exn → M S A) (e : exn) :
  always_raises body e → derives_Exception e = false →
  always_raises (try_except body handler) e.
Proof.
  intros Hb He s. destruct (Hb s) as (s1 & Hs1). exists s1. cbn.
  by rewrite Hs1, He.
Qed.

End Rules.

End OutcomeFacts.

Module InProcessExtras.
Import Py Text InProcess Outcomes Frames DriverFacts OutcomeFacts.

Section Wrappers.
Context {callable world : Type}.
Variable create_automated_input_function : list string → callable.
Variable create_automated_getpass_function : gmap string string → callable.
Variable capture_print : callable.
Variable print : string → M (globals callable world) unit.
Variable load_module exec_module write_results : M (globals callable world) unit.
Variables vm_uuid task_uuid : globals callable world → option string.
Variable format_exc : exn → string.

Local Abbreviation v2 :=
  (run_automated_deployment_v2
     create_automated_input_function create_automated_getpass_function
     capture_print print load_module exec_module vm_uuid task_uuid format_exc).
Local Abbreviation v3 :=
  (run_automated_deployment_v3
     create_automated_input_function create_automated_getpass_function
     print load_module exec_module write_results).

(** *** [sys.argv] *)

Lemma keeps_ret {A} (a : A) :
  keeps_argv (mret a : M (globals callable world) A).
Proof. done. Qed.

Lemma keeps_bind {A B} (m : M (globals callable world) A)
    (f : A → M (globals callable world) B) :
  keeps_argv m → (∀ a, keeps_argv (f a)) → keeps_argv (m ≫= f).
Proof.
  intros Hm Hf g. rewrite run_bind. specialize (Hm g).
  destruct (run m g) as [[a|e] g1]; cbn [snd] in *; [|done].
  by rewrite Hf.
Qed.

Lemma keeps_gets {A} (f : globals callable world → A) : keeps_argv (gets f).
Proof. done. Qed.

Lemma keeps_set_input (f : callable) :
  keeps_argv (set_input f : M (globals callable world) unit).
Proof. done. Qed.

Lemma keeps_set_getpass (f : callable) :
  keeps_argv (set_getpass f : M (globals callable world) unit).
Proof. done. Qed.

Lemma keeps_set_print (f : callable) :
  keeps_argv (set_print f : M (globals callable world) unit).
Proof. done. Qed.

Lemma keeps_except {A} (body : M (globals callable world) A)
    (handler : exn → M (globals callable world) A) :
  keeps_argv body → (∀ e, keeps_argv (handler e)) →
  keeps_argv (try_except body handler).
Proof.
  intros Hb Hh g. cbn. specialize (Hb g).
  destruct (run body g) as [[a|e] g1]; cbn [snd] in *; [done|].
  destruct (derives_Exception e); [|done]. by rewrite Hh.
Qed.

Lemma keeps_finally {A} (body : M (globals callable world) A)
    (final : M (globals callable world) unit) :
  keeps_argv body → keeps_argv final → keeps_argv (try_finally body final).
Proof.
  intros Hb Hf g. cbn. specialize (Hb g).
  destruct (run body g) as [r g1]; cbn [snd] in *.
  specialize (Hf g1). destruct (run final g1) as [[[]|e] g2]; cbn [snd] in *;
    congruence.
Qed.

(** The block that runs the driven program puts [sys.argv] back, whatever
    the driven program did to it. *)
Lemma keeps_run_deploy (body : M (globals callable world) unit) :
  keeps_argv (run_deploy body).
Proof.
  intros g. unfold run_deploy. rewrite run_gets_then. cbn.
  destruct (run body _) as [r g1]. done.
Qed.

Hypothesis print_keeps_argv : ∀ msg, keeps_argv (print msg).
Hypothesis write_keeps_argv : keeps_argv write_results.

Ltac keeps :=
  repeat first
    [ apply keeps_ret | apply keeps_gets | apply print_keeps_argv
    | apply write_keeps_argv | apply keeps_run_deploy
    | apply keeps_set_input | apply keeps_set_getpass | apply keeps_set_print
    | apply keeps_finally | apply keeps_except; [|intros ?]
    | apply keeps_bind; [|intros ?]
    | match goal with |- keeps_argv (if ?b then _ else _) => destruct b end
    | match goal with |- keeps_argv (match ?x with (_, _) => _ end) =>
        destruct x end ].

(** For every driven program -- whatever it binds [sys.argv] to, and
    however it ends -- and whether or not an automation request was loaded,
    [sys.argv] is after [run_automated_deployment] what it was before. *)
Theorem argv_is_restored (automation_data : option (gmap string string))
    (g : globals callable world) :
  sys_argv (snd (run (v2 automation_data) g)) = sys_argv g ∧
  sys_argv (snd (run (v3 automation_data) g)) = sys_argv g.
Proof.
  split.
  - revert g. change (keeps_argv (v2 automation_data)).
    unfold run_automated_deployment_v2, interactive_mode, announce. keeps.
  - revert g. change (keeps_argv (v3 automation_data)).
    unfold run_automated_deployment_v3, interactive_mode, announce. keeps.
Qed.

End Wrappers.

Section Results.
Context {callable world : Type}.
Variable create_automated_input_function : list string → callable.
Variable create_automated_getpass_function : gmap string string → callable.
Variable print : string → M (globals callable world) unit.
Variable load_module exec_module write_results : M (globals callable world) unit.

Local Abbreviation v3 :=
  (run_automated_deployment_v3
     create_automated_input_function create_automated_getpass_function
     print load_module exec_module write_results).

(** [print] and the loading of the module go through. *)
Hypothesis print_returns : ∀ msg, returns_normally (print msg).
Hypothesis load_returns : returns_normally load_module.

Lemma set_argv_returns (argv : list string) :
  returns_normally (set_argv argv : M (globals callable world) unit).
Proof. apply returns_modify. Qed.

Lemma run_deploy_returns :
  returns_normally exec_module →
  returns_normally (run_deploy (load_module ;; exec_module)).
Proof.
  intros Hexec. unfold run_deploy.
  apply returns_bind; [apply returns_gets | intros argv].
  apply finally_returns; [|apply set_argv_returns].
  apply returns_bind; [apply set_argv_returns | intros _].
  apply returns_bind; [apply load_returns | intros _]. done.
Qed.

Lemma run_deploy_raises (e : exn) :
  always_raises exec_module e →
  always_raises (run_deploy (load_module ;; exec_module)) e.
Proof.
  intros Hexec. unfold run_deploy.
  apply raises_after; [apply returns_gets | intros argv].
  apply finally_raises; [|apply set_argv_returns].
  apply raises_after; [apply set_argv_returns | intros _].
  apply raises_after; [apply load_returns | intros _]. done.
Qed.

Lemma announce_returns (data : gmap string string) :
  returns_normally (announce print data).
Proof.
  unfold announce.
  repeat (apply returns_bind; [apply print_returns | intros _]).
  eapply gives_returns, gives_ret.
Qed.

Lemma restore_returns (a b : callable) (msg : string) :
  returns_normally (set_input a ;; set_getpass b ;; print msg).
Proof.
  apply returns_bind; [apply returns_modify | intros _].
  apply returns_bind; [apply returns_modify | intros _].
  apply print_returns.
Qed.



End Results.

Import Samples.

Lemma console_print_returns (msg : string) :
  returns_normally (console_print msg).
Proof. intros g. by eexists tt, _. Qed.

Lemma hostile_program_raises :
  always_raises hostile_program (SystemExit "1").
Proof. intros g. by eexists. Qed.

Lemma argv_is_restored_witness :
  sys_argv (snd (run (console_v3 hostile_program request) fresh_console))
  = ["deploy_vm_automated_v2.py"].
Proof.
  unfold console_v3.
  apply (argv_is_restored
           (λ _, "automated_input") (λ _, "automated_getpass") "capture_print"
           console_print (mret tt) hostile_program (mret tt)
           (λ _, None) (λ _, None) text).
  - intros msg g. reflexivity.
  - intros g. reflexivity.
Defined.

Lemma load_nothing_returns : returns_normally (mret tt : M console unit).
Proof. intros g. by exists tt, g. Qed.

Lemma request_is_loaded : falsy request = false.
Proof. vm_compute. reflexivity. Qed.



End InProcessExtras.

(** ** The second revision as a whole *)

Module SecondFacts.
Import Py Text TextFacts InProcess Second DriverFacts CaptureFacts.

Lemma keeps_print_bind {A B} (m : M state A) (f : A → M state B) :
  keeps_print m → (∀ a, keeps_print (f a)) → keeps_print (m ≫= f).
Proof.
  intros Hm Hf g. rewrite run_bind. specialize (Hm g).
  destruct (run m g) as [[a|e] g1]; cbn [snd] in *; [|done].
  by rewrite Hf.
Qed.

Lemma keeps_print_lift {A} (m : M Capture.capture A) : keeps_print (lift m).
Proof. intros g. cbn. by destruct (run m (rest g)). Qed.

Lemma keeps_print_print (depth : nat) (msg : string) :
  keeps_print (print depth msg).
Proof.
  intros g. unfold print. rewrite run_gets_then.
  destruct (builtins_print g) eqn:E; by rewrite keeps_print_lift.
Qed.

Lemma keeps_print_run_deploy (body : M state unit) :
  keeps_print body → keeps_print (run_deploy body).
Proof.
  intros Hb g. unfold run_deploy. rewrite run_gets_then.
  rewrite OutcomeFacts.finally_state.
  change (builtins_print (snd (run (set_argv (sys_argv g)) ?s)))
    with (builtins_print s).
  apply (keeps_print_bind (set_argv _) (λ _, body)); [done | by intros _].
Qed.

Lemma never_returns_first {A B} (m : M state A) (f : A → M state B) :
  never_returns m → never_returns (m ≫= f).
Proof.
  intros Hm g Hg b g' Hrun. rewrite run_bind in Hrun.
  destruct (run m g) as [[a|e] g1] eqn:Hr; [|done].
  exact (Hm g Hg a g1 Hr).
Qed.

Lemma never_returns_later {A B} (m : M state A) (f : A → M state B) :
  keeps_print m → (∀ a, never_returns (f a)) → never_returns (m ≫= f).
Proof.
  intros Hm Hf g Hg b g' Hrun. rewrite run_bind in Hrun.
  specialize (Hm g). destruct (run m g) as [[a|e] g1] eqn:Hr; [|done].
  cbn in Hm.
  assert (capturing g1) as Hg1 by (unfold capturing in *; congruence).
  exact (Hf a g1 Hg1 b g' Hrun).
Qed.

(** While [capture_print] is installed, a line that mentions a UUID
    cannot be printed. *)
Lemma labelled_print_never_returns (depth : nat) (msg : string) :
  Capture.mentions_uuid msg = true → never_returns (print depth msg).
Proof.
  intros Hm g Hg a g'. unfold print. rewrite run_gets_then, Hg. cbn.
  rewrite (labelled_message_is_never_scanned depth [msg] (rest g)) by done.
  done.
Qed.

Lemma vm_uuid_line_mentions_uuid (x : string) :
  Capture.mentions_uuid ("VM UUID: " +:+ x) = true.
Proof.
  unfold Capture.mentions_uuid. cbn [existsb].
  assert (contains "VM UUID" ("VM UUID: " +:+ x) = true) as ->; [|done].
  apply contains_spec. by exists "", (": " +:+ x).
Qed.

(** With an automation request loaded, and a driven program that leaves
    [builtins.print] alone, the second revision never returns 0: the lines
    in which it would report the identifiers mention a UUID, and no such
    line gets through the capture it installed itself.  It returns 1 or it
    raises -- whatever the driven program does and whatever the recursion
    limit. *)
Theorem second_revision_never_reports_success
    (depth : nat) (load_module exec_module : M state unit)
    (format_exc : exn → string)
    (automation_data : option (gmap string string)) (g : state) :
  falsy automation_data = false →
  keeps_print load_module → keeps_print exec_module →
  fst (run (run_automated_deployment depth load_module exec_module
              format_exc automation_data) g) ≠ Returns 0.
Proof.
  intros Hloaded Hload Hexec.
  unfold run_automated_deployment, run_automated_deployment_v2.
  rewrite Hloaded. rewrite run_bind.
  destruct (run (announce (print depth) (default ∅ automation_data)) g)
    as [[[q p]|e] g1]; [|by cbn].
  rewrite !run_gets_then.
  match goal with
  | |- context [try_finally (try_except ?b ?h) ?f] =>
      set (body := b); set (handler := h); set (final := f)
  end.
  assert (∀ s a s', run body s ≠ (Returns a, s')) as Hbody.
  { intros s a s'. subst body. unfold set_input, set_getpass, set_print.
    rewrite !run_modify_then.
    match goal with |- run ?m ?s0 ≠ _ =>
      assert (never_returns m) as Hnr; [|apply (Hnr s0); reflexivity] end.
    apply never_returns_later; [apply keeps_print_print | intros _].
    apply never_returns_later.
    { apply keeps_print_run_deploy.
      apply keeps_print_bind; [apply keeps_print_print | intros _].
      apply keeps_print_bind; [done | intros _].
      apply keeps_print_bind; [apply keeps_print_print | intros _].
      apply keeps_print_bind; [done | intros _].
      apply keeps_print_print. }
    intros _.
    apply never_returns_later; [done | intros cv].
    apply never_returns_later; [done | intros ct].
    apply never_returns_later; [apply keeps_print_print | intros _].
    apply never_returns_later; [apply keeps_print_print | intros _].
    apply never_returns_first.
    destruct (truthy cv); apply labelled_print_never_returns,
      vm_uuid_line_mentions_uuid. }
  assert (∀ e s a s', run (handler e) s = (Returns a, s') → a = 1) as Hh.
  { intros e s a s'. subst handler. cbn beta.
    rewrite run_bind.
    destruct (run (print depth _) s) as [[[]|e1] s1]; [|done].
    rewrite run_bind.
    destruct (run (print depth _) s1) as [[[]|e2] s2]; [|done].
    rewrite run_bind.
    destruct (run (print depth _) s2) as [[[]|e3] s3]; [|done].
    by intros [= <- _]. }
  cbn [run try_finally try_except].
  destruct (run body g1) as [[a|e] g2] eqn:Hb.
  { by destruct (Hbody g1 a g2). }
  destruct (derives_Exception e).
  - destruct (run (handler e) g2) as [[a|e'] g3] eqn:Hhr.
    + apply Hh in Hhr as ->.
      by destruct (run final g3) as [[[]|e'] g4].
    + by destruct (run final g3) as [[[]|e''] g4].
  - by destruct (run final g2) as [[[]|e'] g3].
Qed.

Lemma second_revision_never_reports_success_witness :
  fst (run (run_automated_deployment 6 (mret tt) (quiet_program 6) text
              Samples.request) fresh) ≠ Returns 0.
Proof.
  apply (second_revision_never_reports_success
           6 (mret tt) (quiet_program 6) text Samples.request fresh).
  - vm_compute. reflexivity.
  - intros g. reflexivity.
  - intros g. apply keeps_print_print.
Defined.

(** A driven program that prints one harmless line and ends: the wrapper
    returns 1, and the three names are back. *)
Example quiet_program_ends_in_failure :
  fst (run (run_automated_deployment 6 (mret tt) (quiet_program 6) text
              Samples.request) fresh) = Returns 1 ∧
  primitives (snd (run (run_automated_deployment 6 (mret tt)
                          (quiet_program 6) text Samples.request) fresh))
  = (interpreter "input", interpreter "getpass", interpreter "print").
Proof. split; vm_compute; reflexivity. Qed.

End SecondFacts.

(** ** The out-of-process strategy *)

Module FourthFacts.
Import Py Text Extractor InProcess Fourth FourthFrames Outcomes.
Import TextFacts DriverFacts ExtractorFacts ExtractorExtras OutcomeFacts.

Local Arguments String.append !_ _ / : simpl nomatch.

Section Wrapper.
Context {callable : Type}.

Local Abbreviation state := (globals callable world).

(** [g] with its world replaced. *)
Local Abbreviation put g w :=
  {| builtins_input := builtins_input g;
     getpass_getpass := getpass_getpass g;
     builtins_print := builtins_print g;
     sys_argv := sys_argv g;
     rest := w |}.

Local Abbreviation printed w lines :=
  {| stdout := stdout w ++ lines; files := files w; spawned := spawned w |}.

Lemma put_rest (g : state) : put g (rest g) = g.
Proof. by destruct g. Qed.

Lemma run_print_then {A} (msg : string) (k : M state A) (g : state) :
  run (print msg ;; k) g = run k (put g (printed (rest g) [msg])).
Proof. done. Qed.

Lemma run_print (msg : string) (g : state) :
  run (print msg) g = (Returns tt, put g (printed (rest g) [msg])).
Proof. done. Qed.

Lemma console_returns (msg : string) :
  returns_normally (print msg : M state unit).
Proof. intros g. by eexists tt, _. Qed.

Lemma run_try_except {A} (body : M state A) (handler : exn → M state A)
    (g : state) :
  run (try_except body handler) g =
  match run body g with
  | (Returns a, g') => (Returns a, g')
  | (Raises e, g') =>
      if derives_Exception e then run (handler e) g' else (Raises e, g')
  end.
Proof. done. Qed.

Lemma run_try_finally {A} (body : M state A) (final : M state unit)
    (g : state) :
  run (try_finally body final) g =
  match run final (snd (run body g)) with
  | (Returns _, g2) => (fst (run body g), g2)
  | (Raises e, g2) => (Raises e, g2)
  end.
Proof. unfold try_finally. cbn. by destruct (run body g). Qed.

(** The lines printed before the child is started. *)
Lemma run_preamble {A} (d : gmap string string) (k : M state A) (g : state) :
  run (print ">>> Running VM deployment in automation mode..." ;;
       print ("   VM Name: " +:+ default "N/A" (d !! "vm_name")) ;;
       print ">>> Password automation configured:" ;;
       print ("   VM Admin Password: " +:+
              masked (default "" (d !! "admin_password"))) ;;
       print ("   Prism Central Password: " +:+
              masked (default "" (d !! "pc_password"))) ;;
       k) g =
  run k (put g (printed (rest g) (preamble d))).
Proof.
  rewrite !run_print_then. cbn [rest stdout files spawned].
  unfold preamble. by rewrite <- !app_assoc.
Qed.


Lemma run_named_temporary_file {A} (name : string) (inputs : list string)
    (k : string → M state A) (g : state) :
  run (named_temporary_file (Returns name) inputs ≫= k) g =
  run (k name)
      (put g {| stdout := stdout (rest g);
                files := <[name := lines_of inputs]> (files (rest g));
                spawned := spawned (rest g) |}).
Proof. done. Qed.

Lemma run_unlink (name : string) (g : state) :
  run (unlink name : M state unit) g =
  (Returns tt, put g {| stdout := stdout (rest g);
                        files := delete name (files (rest g));
                        spawned := spawned (rest g) |}).
Proof. done. Qed.

Lemma run_subprocess_run {A} (child : string → child_outcome)
    (input : string) (k : string * string * Z → M state A) (g : state) :
  run (subprocess_run child input ≫= k) g =
  let g' := put g {| stdout := stdout (rest g);
                     files := files (rest g);
                     spawned := spawned (rest g) ++ [input] |} in
  match child input with
  | completed out err returncode => run (k (out, err, returncode)) g'
  | timeout_expired => (Raises TimeoutExpired, g')
  | spawn_error e => (Raises e, g')
  end.
Proof.
  unfold subprocess_run. rewrite run_bind. cbn.
  by destruct (child input).
Qed.

Lemma run_with_automated (name : string) (child : string → child_outcome)
    (load_module exec_module : M state unit) (d : gmap string string)
    (g : state) :
  falsy (Some d) = false →
  run (run_with (Returns name) child load_module exec_module (Some d)) g =
  let inputs := automation_inputs_of d in
  let out0 := stdout (rest g) ++ preamble d in
  let files' := delete name (<[name := lines_of inputs]> (files (rest g))) in
  let spawned' := spawned (rest g) ++ [stdin_of inputs] in
  match child (stdin_of inputs) with
  | completed out err returncode =>
      (Returns returncode,
       put g {| stdout :=
                  out0 ++ [">>> Deployment subprocess completed"] ++
                  report (fst (extract_uuids_from_output out))
                         (snd (extract_uuids_from_output out)) ++
                  (if String.eqb err "" then []
                   else ["[DEBUG] Stderr output: " +:+ err]);
                files := files'; spawned := spawned' |})
  | timeout_expired =>
      (Returns 1,
       put g {| stdout :=
                  out0 ++ ["[ERROR] Deployment timed out after 5 minutes"];
                files := files'; spawned := spawned' |})
  | spawn_error e =>
      if derives_Exception e then
        (Returns 1,
         put g {| stdout :=
                    out0 ++
                    [if String.eqb (type_name e) "TimeoutExpired"
                     then "[ERROR] Deployment timed out after 5 minutes"
                     else "[ERROR] Error running deployment subprocess: "
                          +:+ text e];
                  files := files'; spawned := spawned' |})
      else
        (Raises e,
         put g {| stdout := out0; files := files'; spawned := spawned' |})
  end.
Proof.
  intros Hd. unfold run_with. rewrite Hd.
  change (default ∅ (Some d)) with d.
  rewrite run_preamble, run_try_except, run_named_temporary_file.
  rewrite run_try_finally, run_try_except, run_subprocess_run.
  cbn [rest stdout files spawned]. cbv zeta.
  destruct (child (stdin_of (automation_inputs_of d)))
    as [out err returncode| |e].
  - destruct (extract_uuids_from_output out) as [vm_uuid task_uuid].
    cbn [fst snd]. unfold report.
    rewrite run_bind, run_print, run_bind.
    destruct (String.eqb vm_uuid ""), (String.eqb task_uuid ""),
      (String.eqb err "");
      rewrite run_print, run_bind, run_print; cbn;
      rewrite <- ?app_assoc; reflexivity.
  - cbn. by rewrite <- ?app_assoc.
  - cbn. destruct (derives_Exception e) eqn:He; cbn; [|by rewrite He].
    destruct (String.eqb (type_name e) "TimeoutExpired"); cbn;
      by rewrite <- ?app_assoc.
Qed.


Lemma run_with_no_file (e : exn) (child : string → child_outcome)
    (load_module exec_module : M state unit) (d : gmap string string)
    (g : state) :
  falsy (Some d) = false →
  run (run_with (Raises e) child load_module exec_module (Some d)) g =
  if derives_Exception e then
    (Returns 1,
     put g (printed (rest g)
              (preamble d ++
               ["[ERROR] Error during automated deployment: " +:+ text e])))
  else (Raises e, put g (printed (rest g) (preamble d))).
Proof.
  intros Hd. unfold run_with. rewrite Hd.
  change (default ∅ (Some d)) with d.
  rewrite run_preamble, run_try_except. cbn.
  destruct (derives_Exception e); [|done].
  by rewrite <- app_assoc.
Qed.

Lemma split_lines_join (ls : list string) :
  ls ≠ [] →
  Forall (λ l, all_in (λ x, negb (Ascii.eqb x newline)) l = true) ls →
  split_lines (join_lines ls +:+ String newline "") = ls ++ [""].
Proof.
  intros Hne Hall. induction Hall as [|l ls Hl Hls IH]; [done|].
  destruct ls as [|l' ls].
  - cbn [join_lines app]. by rewrite split_lines_line.
  - change (join_lines (l :: l' :: ls))
      with (l +:+ String newline (join_lines (l' :: ls))).
    rewrite sapp_assoc, sapp_cons, split_lines_line by done.
    by rewrite IH.
Qed.

Lemma uuid_shape_not_empty (u : string) :
  uuid_shape lower_hex u → String.eqb u "" = false.
Proof.
  intros (g1 & g2 & g3 & g4 & g5 & -> & L1 & _).
  by destruct g1.
Qed.

Lemma extracted_shapes (output : string) :
  let vm_uuid := fst (extract_uuids_from_output output) in
  let task_uuid := snd (extract_uuids_from_output output) in
  (vm_uuid = "" ∨ uuid_shape lower_hex vm_uuid) ∧
  (task_uuid = "" ∨ uuid_shape lower_hex task_uuid).
Proof.
  cbv zeta. unfold extract_uuids_from_output. rewrite foldl_scan_line.
  cbn [fst snd]. split.
  - destruct (last (omap vm_match _)) as [u|] eqn:Hl; [right|by left].
    apply last_omap_elem in Hl as (line & _ & Hm).
    by apply vm_match_sound in Hm as (_ & _ & ?).
  - destruct (last (omap task_match _)) as [u|] eqn:Hl; [right|by left].
    apply last_omap_elem in Hl as (line & _ & Hm).
    by apply task_match_sound in Hm as (_ & _ & ?).
Qed.

Lemma report_reads_back (vm_uuid task_uuid : string) :
  vm_uuid = "" ∨ uuid_shape lower_hex vm_uuid →
  task_uuid = "" ∨ uuid_shape lower_hex task_uuid →
  extract_uuids_from_output (lines_of (report vm_uuid task_uuid))
  = (vm_uuid, task_uuid).
Proof.
  intros Hv Ht. unfold report, lines_of, extract_uuids_from_output.
  assert (split_lines
            ((if String.eqb vm_uuid "" then "VM UUID: "
              else "VM UUID: " +:+ vm_uuid) +:+
             String newline
               ((if String.eqb task_uuid "" then "Task UUID: "
                 else "Task UUID: " +:+ task_uuid) +:+ String newline ""))
          = [if String.eqb vm_uuid "" then "VM UUID: "
             else "VM UUID: " +:+ vm_uuid;
             if String.eqb task_uuid "" then "Task UUID: "
             else "Task UUID: " +:+ task_uuid; ""]) as ->.
  { rewrite split_lines_line.
    2:{ destruct Hv as [->|Hv]; [done|].
        rewrite (uuid_shape_not_empty _ Hv), all_in_app.
        by rewrite (uuid_has_no_newline _ Hv). }
    rewrite split_lines_line; [done|].
    destruct Ht as [->|Ht]; [done|].
    rewrite (uuid_shape_not_empty _ Ht), all_in_app.
    by rewrite (uuid_has_no_newline _ Ht). }
  cbn [foldl]. rewrite !scan_line_eq.
  assert (vm_match "" = None ∧ task_match "" = None) as [-> ->] by done.
  destruct Hv as [->|Hv], Ht as [->|Ht];
    rewrite ?(uuid_shape_not_empty _ Hv), ?(uuid_shape_not_empty _ Ht);
    cbn [String.eqb];
    try destruct (vm_line_yields _ Hv) as [-> ->];
    try destruct (task_line_yields _ Ht) as [-> ->];
    done.
Qed.


Lemma run_get_none (environ : gmap string string) (fs : string → file_state)
    (g : state) :
  let automation_file := default "" (environ !! "VM_AUTOMATION_FILE") in
  automation_file = "" ∨ fs automation_file = absent →
  run (get_automation_inputs environ fs) g = (Returns None, g).
Proof.
  cbv zeta. unfold get_automation_inputs. intros [->| ->]; [done|].
  by destruct (String.eqb _ "").
Qed.

Lemma run_get_unreadable (environ : gmap string string)
    (fs : string → file_state) (e : exn) (g : state) :
  let automation_file := default "" (environ !! "VM_AUTOMATION_FILE") in
  automation_file ≠ "" → fs automation_file = unreadable e →
  run (get_automation_inputs environ fs) g =
  if derives_Exception e then
    (Returns None,
     put g (printed (rest g)
              ["[ERROR] Error reading automation file: " +:+ text e]))
  else (Raises e, g).
Proof.
  cbv zeta. unfold get_automation_inputs.
  intros Hne%String.eqb_neq ->. rewrite Hne, run_try_except. cbn.
  by destruct (derives_Exception e).
Qed.

Lemma run_get_object (environ : gmap string string)
    (fs : string → file_state) (d : gmap string string) (g : state) :
  let automation_file := default "" (environ !! "VM_AUTOMATION_FILE") in
  automation_file ≠ "" → fs automation_file = object d →
  run (get_automation_inputs environ fs) g = (Returns (Some d), g).
Proof.
  cbv zeta. unfold get_automation_inputs.
  intros Hne%String.eqb_neq ->. by rewrite Hne.
Qed.

Lemma run_loaded (environ : gmap string string) (fs : string → file_state)
    (tmp : outcome string) (child : string → child_outcome)
    (load_module exec_module : M state unit) (d : gmap string string)
    (g : state) :
  let automation_file := default "" (environ !! "VM_AUTOMATION_FILE") in
  automation_file ≠ "" → fs automation_file = object d →
  run (run_automated_deployment environ fs tmp child load_module exec_module)
      g =
  run (run_with tmp child load_module exec_module (Some d)) g.
Proof.
  cbv zeta. intros Hne Hfs. unfold run_automated_deployment.
  by rewrite run_bind, (run_get_object _ _ d).
Qed.

Lemma falsy_object (d : gmap string string) : d ≠ ∅ → falsy (Some d) = false.
Proof. intros Hd. by apply bool_decide_eq_false. Qed.

(** *** With a request

    The environment names a file, and the file holds a JSON object that is
    not empty. *)

Section Loaded.
Variable environ : gmap string string.
Variable fs : string → file_state.
Variable d : gmap string string.
Variable tmp : outcome string.
Variable child : string → child_outcome.
Variables load_module exec_module : M state unit.

Local Abbreviation automation_file :=
  (default "" (environ !! "VM_AUTOMATION_FILE")).

Local Abbreviation wrapper :=
  (run_automated_deployment environ fs tmp child load_module exec_module).

Hypothesis named : automation_file ≠ "".
Hypothesis readable : fs automation_file = object d.
Hypothesis not_empty : d ≠ ∅.

(** The exit code of the out-of-process wrapper.  With a request, the
    wrapper returns the driven program's own return code when it ends; 1
    when it does not end in five minutes, when starting it fails with an
    [Exception], or when the temporary file cannot be created; an error
    that is not an [Exception] leaves the wrapper. *)
Theorem wrapper_returns_the_child_return_code (g : state) :
  fst (run wrapper g) =
  match tmp with
  | Raises e => if derives_Exception e then Returns 1 else Raises e
  | Returns _ =>
      match child (stdin_of (automation_inputs_of d)) with
      | completed _ _ returncode => Returns returncode
      | timeout_expired => Returns 1
      | spawn_error e => if derives_Exception e then Returns 1 else Raises e
      end
  end.
Proof.
  rewrite (run_loaded _ _ _ _ _ _ d) by done.
  pose proof (falsy_object d not_empty) as Hd.
  destruct tmp as [name|e].
  - rewrite run_with_automated by done. cbv zeta.
    destruct (child _) as [out err returncode| |e]; [done..|].
    by destruct (derives_Exception e).
  - rewrite run_with_no_file by done. by destruct (derives_Exception e).
Qed.


(** What the driven program is given to read.  Once the temporary file
    exists the wrapper starts the driven program exactly once; when no
    configured value contains a line break, the lines of its standard input
    are the VM name, [y], the administrator password twice and the Prism
    Central password, followed by the empty rest after the last line
    break. *)
Theorem child_reads_the_five_answers (name : string) (g : state) :
  let vm_name := default "" (d !! "vm_name") in
  let admin_password := default "" (d !! "admin_password") in
  let pc_password := default "" (d !! "pc_password") in
  tmp = Returns name →
  all_in (λ x, negb (Ascii.eqb x newline)) vm_name = true →
  all_in (λ x, negb (Ascii.eqb x newline)) admin_password = true →
  all_in (λ x, negb (Ascii.eqb x newline)) pc_password = true →
  ∃ input,
    spawned (rest (snd (run wrapper g))) = spawned (rest g) ++ [input] ∧
    split_lines input =
    [vm_name; "y"; admin_password; admin_password; pc_password; ""].
Proof.
  intros vm_name admin_password pc_password Htmp Hv Ha Hp.
  exists (stdin_of (automation_inputs_of d)). split.
  - rewrite (run_loaded _ _ _ _ _ _ d) by done.
    pose proof (falsy_object d not_empty) as Hd.
    rewrite Htmp, run_with_automated by done. cbv zeta.
    destruct (child _) as [out err returncode| |e]; [done..|].
    by destruct (derives_Exception e).
  - unfold stdin_of. rewrite split_lines_join; [done|done|].
    unfold automation_inputs_of. by repeat constructor.
Qed.


(** The report of the identifiers.  When the driven program ends, the
    wrapper has printed its five opening lines, the line that the
    subprocess completed, the two labelled lines with the identifiers
    extracted from the driven program's output, and the captured error
    output if there is any; and extracting from those two labelled lines
    gives the same pair again. *)
Theorem report_carries_the_extracted_identifiers (name output error : string)
    (returncode : Z) (g : state) :
  let vm_uuid := fst (Extractor.extract_uuids_from_output output) in
  let task_uuid := snd (Extractor.extract_uuids_from_output output) in
  tmp = Returns name →
  child (stdin_of (automation_inputs_of d))
    = completed output error returncode →
  stdout (rest (snd (run wrapper g))) =
    stdout (rest g) ++ preamble d ++
    [">>> Deployment subprocess completed"] ++
    report vm_uuid task_uuid ++
    (if String.eqb error "" then []
     else ["[DEBUG] Stderr output: " +:+ error]) ∧
  Extractor.extract_uuids_from_output (lines_of (report vm_uuid task_uuid))
    = (vm_uuid, task_uuid).
Proof.
  intros vm_uuid task_uuid Htmp Hchild. split.
  - rewrite (run_loaded _ _ _ _ _ _ d) by done.
    pose proof (falsy_object d not_empty) as Hd.
    rewrite Htmp, run_with_automated by done. cbv zeta.
    rewrite Hchild. cbn [snd rest stdout]. by rewrite <- app_assoc.
  - destruct (extracted_shapes output). by apply report_reads_back.
Qed.

End Loaded.

(** *** Without a request *)

Lemma starts_nothing_ret {A} (a : A) : starts_nothing (mret a : M state A).
Proof. done. Qed.

Lemma starts_nothing_bind {A B} (m : M state A) (f : A → M state B) :
  starts_nothing m → (∀ a, starts_nothing (f a)) → starts_nothing (m ≫= f).
Proof.
  intros Hm Hf g. rewrite run_bind.
  destruct (Hm g) as [Hs Hfl].
  destruct (run m g) as [[a|e] g1]; cbn in *; [|done].
  destruct (Hf a g1) as [Hs' Hfl']. by rewrite Hs', Hfl'.
Qed.

Lemma starts_nothing_print (msg : string) :
  starts_nothing (print msg : M state unit).
Proof. done. Qed.

Lemma starts_nothing_finally {A} (body : M state A) (final : M state unit) :
  starts_nothing body → starts_nothing final →
  starts_nothing (try_finally body final).
Proof.
  intros Hb Hf g. rewrite finally_state.
  destruct (Hf (snd (run body g))) as [-> ->]. apply Hb.
Qed.

Lemma starts_nothing_run_deploy (body : M state unit) :
  starts_nothing body → starts_nothing (run_deploy body).
Proof.
  intros Hb g. unfold run_deploy. rewrite run_gets_then.
  apply starts_nothing_finally; [|done].
  apply starts_nothing_bind; [done|by intros _].
Qed.


End Wrapper.

Import FourthSamples.

Lemma answers_not_empty : answers ≠ ∅.
Proof. apply insert_non_empty. Qed.

Lemma environ_names_a_file :
  default "" (environ !! "VM_AUTOMATION_FILE") ≠ "".
Proof. by vm_compute. Qed.

Lemma wrapper_returns_the_child_return_code_witness :
  fst (run (run_automated_deployment environ good_file tmp child_ok
              (mret tt) (mret tt)) host) = Returns 0.
Proof.
  apply (wrapper_returns_the_child_return_code
           environ good_file answers tmp child_ok (mret tt) (mret tt)).
  - by vm_compute.
  - reflexivity.
  - apply insert_non_empty.
Defined.


Lemma child_reads_the_five_answers_witness :
  ∃ input,
    spawned (rest (snd (run (run_automated_deployment environ good_file tmp
                               child_ok (mret tt) (mret tt)) host))) =
    spawned (rest host) ++ [input] ∧
    split_lines input = ["vm1"; "y"; "secret"; "secret"; "nutanix"; ""].
Proof.
  apply (child_reads_the_five_answers
           environ good_file answers tmp child_ok (mret tt) (mret tt)
           environ_names_a_file eq_refl answers_not_empty
           "/tmp/tmpk3v9x2.txt" host);
    reflexivity.
Defined.


Lemma report_carries_the_extracted_identifiers_witness :
  stdout (rest (snd (run (run_automated_deployment environ good_file tmp
                            child_ok (mret tt) (mret tt)) host))) =
  [">>> Running VM deployment in automation mode...";
   "   VM Name: vm1";
   ">>> Password automation configured:";
   "   VM Admin Password: ******";
   "   Prism Central Password: *******";
   ">>> Deployment subprocess completed";
   "VM UUID: 11111111-2222-3333-4444-555555555555";
   "Task UUID: aaaaaaaa-bbbb-cccc-dddd-eeeeeeeeeeee"] ∧
  Extractor.extract_uuids_from_output
    (lines_of (report "11111111-2222-3333-4444-555555555555"
                      "aaaaaaaa-bbbb-cccc-dddd-eeeeeeeeeeee")) =
  ("11111111-2222-3333-4444-555555555555",
   "aaaaaaaa-bbbb-cccc-dddd-eeeeeeeeeeee").
Proof.
  apply (report_carries_the_extracted_identifiers
           environ good_file answers tmp child_ok (mret tt) (mret tt)
           environ_names_a_file eq_refl answers_not_empty
           "/tmp/tmpk3v9x2.txt"
           ("Creating VM vm1" +:+ Samples.nl +:+
            "VM UUID: 11111111-2222-3333-4444-555555555555" +:+ Samples.nl +:+
            "Task UUID: aaaaaaaa-bbbb-cccc-dddd-eeeeeeeeeeee" +:+ Samples.nl)
           "" 0 host);
    reflexivity.
Defined.


(** A file that is not valid JSON: the error is printed, then the notice,
    and the driven program runs in the wrapper's own process. *)
Example broken_file_is_reported_and_skipped :
  run (run_automated_deployment environ broken_file tmp child_ok
         (mret tt) (mret tt)) host =
  (Returns 0,
   {| builtins_input := tt; getpass_getpass := tt; builtins_print := tt;
      sys_argv := ["deploy_vm_automated_v4.py"];
      rest :=
        {| stdout :=
             ["[ERROR] Error reading automation file: Expecting value: line 1 column 1 (char 0)";
              "[ERROR] No automation data found. Running in interactive mode."];
           files := ∅; spawned := [] |} |}).
Proof. reflexivity. Qed.

End FourthFacts.
